(** * Gateway ingress: canvas capability check, auth resolver, request router

    A shallow embedding of [src/gateway/server-http.ts].  The functions of
    that file are translated one by one into a small state-and-exception
    monad; everything the file imports from other modules is gathered in the
    record [Collaborators] and stays a parameter of the development. *)

From Stdlib Require Import ZArith String Ascii List Bool Lia.
From Stdlib Require Import DecimalString.
From stdpp Require Import base option list.

Import ListNotations.
Local Open Scope Z_scope.
Local Open Scope string_scope.

(** ** JavaScript values used by the gateway *)

Module Js.

(** The carriage-return / line-feed pair and the double quote character,
    written with their character codes. *)
Definition CRLF : string := String "013"%char (String "010"%char EmptyString).
Definition DQ : string := String "034"%char EmptyString.

(** [Boolean(s)] for [s : string | undefined]. *)
Definition truthyString (s : option string) : bool :=
  match s with
  | Some s => negb (String.eqb s EmptyString)
  | None => false
  end.

(** [Boolean(n)] for [n : number | undefined], on integer timestamps. *)
Definition truthyNumber (n : option Z) : bool :=
  match n with
  | Some n => negb (Z.eqb n 0)
  | None => false
  end.

(** [a === b] on [string | undefined]. *)
Definition strictEq (a b : option string) : bool :=
  match a, b with
  | Some x, Some y => String.eqb x y
  | None, None => true
  | _, _ => false
  end.

Definition lowerAscii (c : ascii) : ascii :=
  let n := nat_of_ascii c in
  if (Nat.leb 65 n && Nat.leb n 90)%bool then ascii_of_nat (n + 32) else c.

(** [s.toLowerCase()] on the ASCII range. *)
Fixpoint toLowerCase (s : string) : string :=
  match s with
  | EmptyString => EmptyString
  | String c rest => String (lowerAscii c) (toLowerCase rest)
  end.

(** [s.startsWith(p)]. *)
Definition startsWith (p s : string) : bool := String.prefix p s.

(** [xs.join(sep)]. *)
Fixpoint join (sep : string) (xs : list string) : string :=
  match xs with
  | [] => EmptyString
  | [x] => x
  | x :: rest => x ++ sep ++ join sep rest
  end.

(** [Math.ceil(n / d)] for an integer [n] and a positive integer [d]. *)
Definition ceilDiv (n d : Z) : Z := - ((- n) / d).

(** The decimal rendering of an integer, as a template literal prints it. *)
Definition numberToString (n : Z) : string :=
  NilZero.string_of_int (Z.to_int n).

End Js.

(** ** Data model *)

(** A connected WebSocket peer ([GatewayWsClient]); only the fields the
    ingress layer reads or writes. *)
Record GatewayWsClient := mkClient {
  connect_role : option string;
  connect_client_mode : string;
  canvasCapability : option string;
  canvasCapabilityExpiresAtMs : option Z }.

Definition setExpiresAtMs (client : GatewayWsClient) (v : Z) : GatewayWsClient :=
  {| connect_role := connect_role client;
     connect_client_mode := connect_client_mode client;
     canvasCapability := canvasCapability client;
     canvasCapabilityExpiresAtMs := Some v |}.

(** The authorization verdict ([GatewayAuthResult]). *)
Record GatewayAuthResult := mkAuthResult {
  ok : bool;
  method : option string;
  reason : option string;
  rateLimited : bool;
  retryAfterMs : option Z }.

(** [{ ok: true }] *)
Definition authOk : GatewayAuthResult :=
  {| ok := true; method := None; reason := None;
     rateLimited := false; retryAfterMs := None |}.

(** [{ ok: false, reason: "unauthorized" }] *)
Definition authUnauthorized : GatewayAuthResult :=
  {| ok := false; method := None; reason := Some "unauthorized";
     rateLimited := false; retryAfterMs := None |}.

(** The trust configuration ([ResolvedGatewayAuth]). *)
Record ResolvedGatewayAuth := mkAuth {
  auth_mode : string;
  auth_token : option string;
  auth_password : option string;
  allowTailscale : bool }.

(** [{ ...auth, allowTailscale: v }] *)
Definition withAllowTailscale (auth : ResolvedGatewayAuth) (v : bool) : ResolvedGatewayAuth :=
  {| auth_mode := auth_mode auth;
     auth_token := auth_token auth;
     auth_password := auth_password auth;
     allowTailscale := v |}.

(** [connectAuth: { token, password }] *)
Record ConnectAuth := mkConnectAuth {
  ca_token : string;
  ca_password : string }.

(** An inbound request ([IncomingMessage]). *)
Record IncomingMessage := mkReq {
  req_method : option string;
  req_url : option string;
  req_headers_upgrade : option string;
  req_headers_authorization : option string;
  req_remoteAddress : option string }.

Definition setUrl (req : IncomingMessage) (u : string) : IncomingMessage :=
  {| req_method := req_method req;
     req_url := Some u;
     req_headers_upgrade := req_headers_upgrade req;
     req_headers_authorization := req_headers_authorization req;
     req_remoteAddress := req_remoteAddress req |}.

(** The response object ([ServerResponse]) as the ingress layer drives it:
    an assignable status code, [setHeader] and [end]. *)
Record ServerResponse := mkRes {
  statusCode : Z;
  headers : list (string * string);
  body : option string }.

Definition setStatusCode (res : ServerResponse) (s : Z) : ServerResponse :=
  {| statusCode := s; headers := headers res; body := body res |}.

(** [res.setHeader(name, value)] replaces an earlier value of the header. *)
Definition setHeader (res : ServerResponse) (name value : string) : ServerResponse :=
  {| statusCode := statusCode res;
     headers := List.filter (fun h => negb (String.eqb (fst h) name)) (headers res)
                  ++ [(name, value)];
     body := body res |}.

(** [res.end(chunk)] *)
Definition endWith (res : ServerResponse) (chunk : string) : ServerResponse :=
  {| statusCode := statusCode res; headers := headers res; body := Some chunk |}.

(** The raw socket of an upgrade request. *)
Record Socket := mkSocket {
  written : list string;
  destroyed : bool }.

(** The result of the URL scoping normalizer. *)
Record NormalizedCanvasScopedUrl := mkScoped {
  rewrittenUrl : option string;
  capability : option string;
  malformedScopedPath : bool }.

(** The part of the config snapshot read here:
    [configSnapshot.gateway?.trustedProxies]. *)
Record OpenClawConfig := mkConfig {
  gateway_trustedProxies : option (list string) }.

(** A rate limiter is an object living in collaborator state; the ingress
    layer only passes its handle on. *)
Definition AuthRateLimiter := nat.

(** ** Exceptions and outcomes *)

Definition Exn := string.

Inductive Outcome (A : Type) : Type :=
| Returned (a : A)
| Thrown (e : Exn).
Arguments Returned {A} a.
Arguments Thrown {A} e.

(** ** Calls that leave [server-http.ts] *)

Inductive Event : Type :=
| EvDateNow
| EvSetDefaultSecurityHeaders
| EvLoadConfig
| EvNormalizeCanvasScopedUrl (rawUrl : string)
| EvUrlPathname (url : string)
| EvIsLocalDirectRequest (trustedProxies : list string)
| EvGetBearerToken
| EvAuthorizeGatewayConnect (auth : ResolvedGatewayAuth)
    (connectAuth : option ConnectAuth) (trustedProxies : list string)
    (rateLimiter : option AuthRateLimiter)
| EvSendGatewayAuthFailure (auth : GatewayAuthResult)
| EvHandleHooksRequest
| EvHandleToolsInvokeHttpRequest
| EvHandleSlackHttpRequest
| EvHandlePluginRequest
| EvHandleOpenResponsesHttpRequest
| EvHandleOpenAiHttpRequest
| EvHandleA2uiHttpRequest
| EvCanvasHostHandleHttpRequest
| EvHandleControlUiAvatarRequest
| EvHandleControlUiHttpRequest
| EvSocketWrite (chunk : string)
| EvSocketDestroy
| EvCanvasHostHandleUpgrade
| EvWssHandleUpgrade.

(** ** The world the ingress layer runs in *)

Section Gateway.

(** State owned by collaborators (rate-limiter buckets, the config file,
    whatever the downstream handlers keep). *)
Context {Ext : Type}.

(** The mutable objects reachable from a request: collaborator state, the
    clock, the shared set of live sessions (in insertion order, one list
    position per session object), the response and the upgrade socket. *)
Record Heap := mkHeap {
  ext : Ext;
  nowMs : Z;
  clients : list GatewayWsClient;
  res : ServerResponse;
  socket : Socket }.

Definition setClients (h : Heap) (cs : list GatewayWsClient) : Heap :=
  {| ext := ext h; nowMs := nowMs h; clients := cs; res := res h; socket := socket h |}.

Definition setRes (h : Heap) (r : ServerResponse) : Heap :=
  {| ext := ext h; nowMs := nowMs h; clients := clients h; res := r; socket := socket h |}.

Definition setSocket (h : Heap) (s : Socket) : Heap :=
  {| ext := ext h; nowMs := nowMs h; clients := clients h; res := res h; socket := s |}.

(** The heap together with the log of calls that left the module. *)
Record World := mkWorld {
  heap : Heap;
  trace : list Event }.

(** ** The monad: state, exceptions and the call log *)

Definition M (A : Type) : Type := World -> Outcome A * World.

Definition ret {A} (a : A) : M A := fun w => (Returned a, w).

Definition bind {A B} (m : M A) (k : A -> M B) : M B :=
  fun w =>
    match m w with
    | (Returned a, w') => k a w'
    | (Thrown e, w') => (Thrown e, w')
    end.

Definition throw {A} (e : Exn) : M A := fun w => (Thrown e, w).

(** [try { body } catch { handler }] *)
Definition tryCatch {A} (body : M A) (handler : M A) : M A :=
  fun w =>
    match body w with
    | (Returned a, w') => (Returned a, w')
    | (Thrown _, w') => handler w'
    end.

(** [promise.catch(() => handler)] *)
Definition catchPromise {A} (body : M A) (handler : M A) : M A :=
  tryCatch body handler.

Definition emit (ev : Event) : M unit :=
  fun w => (Returned tt, {| heap := heap w; trace := trace w ++ [ev] |}).

Definition liftHeap {A} (f : Heap -> Outcome A * Heap) : M A :=
  fun w => let (r, h) := f (heap w) in (r, {| heap := h; trace := trace w |}).

Definition liftOutcome {A} (o : Outcome A) : M A := fun w => (o, w).

Definition getHeap : M Heap := fun w => (Returned (heap w), w).

Definition modifyHeap (f : Heap -> Heap) : M unit :=
  fun w => (Returned tt, {| heap := f (heap w); trace := trace w |}).

End Gateway.

Arguments Heap : clear implicits.
Arguments World : clear implicits.
Arguments M : clear implicits.

Declare Scope gateway_scope.
Delimit Scope gateway_scope with gw.
Notation "x <- m ;; k" := (bind m (fun x => k))
  (at level 100, m at next level, right associativity) : gateway_scope.
Notation "m ;; k" := (bind m (fun _ => k))
  (at level 100, right associativity) : gateway_scope.
Local Open Scope gateway_scope.

(** A request handler: "accepts the request and the response and returns
    whether it fully handled the request"; it may throw, and it may touch
    anything reachable from the heap while it is awaited. *)
Definition Handler (Ext : Type) : Type := Heap Ext -> Outcome bool * Heap Ext.

(** ** Collaborators imported by [server-http.ts] *)

Record Collaborators {Ext : Type} := mkCollaborators {
  (* ../canvas-host/a2ui.js *)
  A2UI_PATH : string;
  CANVAS_HOST_PATH : string;
  CANVAS_WS_PATH : string;
  handleA2uiHttpRequest : IncomingMessage -> Handler Ext;
  (* ../config/config.js *)
  loadConfig : Heap Ext -> Outcome OpenClawConfig;
  (* ../security/secret-equal.js *)
  safeEqualSecret : string -> string -> bool;
  (* ../slack/http/index.js *)
  handleSlackHttpRequest : IncomingMessage -> Handler Ext;
  (* ./auth.js *)
  authorizeGatewayConnect :
    ResolvedGatewayAuth -> option ConnectAuth -> IncomingMessage ->
    list string -> option AuthRateLimiter ->
    Heap Ext -> Outcome GatewayAuthResult * Heap Ext;
  isLocalDirectRequest : IncomingMessage -> list string -> bool;
  (* ./canvas-capability.js *)
  CANVAS_CAPABILITY_TTL_MS : Z;
  normalizeCanvasScopedUrl : string -> Outcome NormalizedCanvasScopedUrl;
  (* ./control-ui.js *)
  handleControlUiAvatarRequest : IncomingMessage -> string -> Handler Ext;
  handleControlUiHttpRequest : IncomingMessage -> string -> OpenClawConfig -> Handler Ext;
  (* ./http-common.js *)
  sendGatewayAuthFailure : ServerResponse -> GatewayAuthResult -> ServerResponse;
  setDefaultSecurityHeaders : ServerResponse -> ServerResponse;
  (* ./http-utils.js *)
  getBearerToken : IncomingMessage -> option string;
  (* ./openai-http.js, ./openresponses-http.js *)
  handleOpenAiHttpRequest :
    IncomingMessage -> ResolvedGatewayAuth -> list string -> option AuthRateLimiter -> Handler Ext;
  handleOpenResponsesHttpRequest :
    IncomingMessage -> ResolvedGatewayAuth -> list string -> option AuthRateLimiter -> Handler Ext;
  (* ./protocol/client-info.js *)
  GATEWAY_CLIENT_MODES_NODE : string;
  normalizeGatewayClientMode : string -> option string;
  (* ./tools-invoke-http.js *)
  handleToolsInvokeHttpRequest :
    IncomingMessage -> ResolvedGatewayAuth -> list string -> option AuthRateLimiter -> Handler Ext;
  (* the platform's [new URL(url, "http://localhost").pathname] *)
  urlPathname : string -> Outcome string }.
Arguments Collaborators : clear implicits.

(** [canvasHost: CanvasHostHandler | null] *)
Record CanvasHostHandler {Ext : Type} := mkCanvasHost {
  handleHttpRequest : IncomingMessage -> Handler Ext;
  handleUpgrade : IncomingMessage -> Handler Ext }.
Arguments CanvasHostHandler : clear implicits.

(** The options of [createGatewayHttpServer]; the session set [clients] is
    the shared object held in the heap. *)
Record HttpServerOpts {Ext : Type} := mkHttpOpts {
  canvasHost : option (CanvasHostHandler Ext);
  controlUiEnabled : bool;
  controlUiBasePath : string;
  openAiChatCompletionsEnabled : bool;
  openResponsesEnabled : bool;
  handleHooksRequest : IncomingMessage -> Handler Ext;
  handlePluginRequest : option (IncomingMessage -> Handler Ext);
  resolvedAuth : ResolvedGatewayAuth;
  rateLimiter : option AuthRateLimiter }.
Arguments HttpServerOpts : clear implicits.

(** The options of [attachGatewayUpgradeHandler]. *)
Record UpgradeOpts {Ext : Type} := mkUpgradeOpts {
  up_wss_handleUpgrade : IncomingMessage -> Heap Ext -> Outcome unit * Heap Ext;
  up_canvasHost : option (CanvasHostHandler Ext);
  up_resolvedAuth : ResolvedGatewayAuth;
  up_rateLimiter : option AuthRateLimiter }.
Arguments UpgradeOpts : clear implicits.

(** ** [server-http.ts] *)

Section ServerHttp.

Context {Ext : Type} (env : Collaborators Ext).

(** *** Calling out of the module *)

(** A call whose effect and result the callee decides; it is logged
    before it runs. *)
Definition call {A} (ev : Event) (f : Heap Ext -> Outcome A * Heap Ext) : M Ext A :=
  emit ev ;; liftHeap f.

(** A call to a helper that only computes a value. *)
Definition callPure {A} (ev : Event) (a : A) : M Ext A :=
  emit ev ;; ret a.

(** A call to a helper that computes a value or throws. *)
Definition callOutcome {A} (ev : Event) (o : Outcome A) : M Ext A :=
  emit ev ;; liftOutcome o.

Definition modifyRes (f : ServerResponse -> ServerResponse) : M Ext unit :=
  modifyHeap (fun h => setRes h (f (res h))).

(** [Date.now()] *)
Definition Date_now : M Ext Z :=
  call EvDateNow (fun h => (Returned (nowMs h), h)).

(** [socket.write(chunk)] *)
Definition socket_write (chunk : string) : M Ext unit :=
  emit (EvSocketWrite chunk) ;;
  modifyHeap (fun h =>
    setSocket h {| written := written (socket h) ++ [chunk];
                   destroyed := destroyed (socket h) |}).

(** [socket.destroy()] *)
Definition socket_destroy : M Ext unit :=
  emit EvSocketDestroy ;;
  modifyHeap (fun h =>
    setSocket h {| written := written (socket h); destroyed := true |}).

(** *** Statements with an early [return] *)

(** A statement of a function body either falls through ([None]) or makes
    the enclosing function return ([Some r]). *)
Definition Stmt (R : Type) : Type := M Ext (option R).

Definition continue {R} : Stmt R := ret None.

Definition return_ {R} (r : R) : Stmt R := ret (Some r).

Definition seqStmt {R} (s1 s2 : Stmt R) : Stmt R :=
  r <- s1 ;;
  match r with
  | Some v => ret (Some v)
  | None => s2
  end.

(** A function body that falls off its end returns [undefined]. *)
Definition runBody (body : Stmt unit) : M Ext unit :=
  r <- body ;; ret (default tt r).

End ServerHttp.

Notation "s1 ;;; s2" := (seqStmt s1 s2)
  (at level 101, right associativity) : gateway_scope.

Section ServerHttpFunctions.

Context {Ext : Type} (env : Collaborators Ext).

(** [sendJson(res, status, body)], with [body] already serialized. *)
Definition sendJson (status : Z) (json : string) : M Ext unit :=
  modifyRes (fun r =>
    endWith
      (setHeader (setStatusCode r status)
         "Content-Type" "application/json; charset=utf-8")
      json).

(** [JSON.stringify(gatewayHealthPayload)] *)
Definition gatewayHealthPayload : string :=
  "{" ++ Js.DQ ++ "ok" ++ Js.DQ ++ ":true,"
      ++ Js.DQ ++ "status" ++ Js.DQ ++ ":" ++ Js.DQ ++ "ok" ++ Js.DQ ++ ","
      ++ Js.DQ ++ "service" ++ Js.DQ ++ ":" ++ Js.DQ ++ "openclaw-gateway" ++ Js.DQ
      ++ "}".

Definition isGatewayHealthPath (pathname : string) : bool :=
  String.eqb pathname "/healthz" || String.eqb pathname "/health".

Definition isCanvasPath (pathname : string) : bool :=
  String.eqb pathname (A2UI_PATH env)
  || Js.startsWith (A2UI_PATH env ++ "/") pathname
  || String.eqb pathname (CANVAS_HOST_PATH env)
  || Js.startsWith (CANVAS_HOST_PATH env ++ "/") pathname
  || String.eqb pathname (CANVAS_WS_PATH env).

Definition isNodeWsClient (client : GatewayWsClient) : bool :=
  if Js.strictEq (connect_role client) (Some "node") then true
  else Js.strictEq
         (normalizeGatewayClientMode env (connect_client_mode client))
         (Some (GATEWAY_CLIENT_MODES_NODE env)).

(** The [for (const client of clients)] loop of
    [hasAuthorizedNodeWsClientForCanvasCapability]: the value returned and
    the session objects after the loop. *)
Fixpoint forEachClient (nowMs : Z) (capability : string)
    (cs : list GatewayWsClient) : bool * list GatewayWsClient :=
  match cs with
  | [] => (false, [])
  | client :: rest =>
    let continue_ :=
      let (r, rest') := forEachClient nowMs capability rest in
      (r, client :: rest') in
    if negb (isNodeWsClient client) then continue_
    else if negb (Js.truthyString (canvasCapability client))
            || negb (Js.truthyNumber (canvasCapabilityExpiresAtMs client))
    then continue_
    else
      match canvasCapability client, canvasCapabilityExpiresAtMs client with
      | Some stored, Some expiresAtMs =>
        if Z.leb expiresAtMs nowMs then continue_
        else if safeEqualSecret env stored capability then
          (* Sliding expiration while the connected node keeps using canvas. *)
          (true, setExpiresAtMs client (nowMs + CANVAS_CAPABILITY_TTL_MS env) :: rest)
        else continue_
      | _, _ => continue_
      end
  end.

Definition hasAuthorizedNodeWsClientForCanvasCapability
    (capability : string) : M Ext bool :=
  nowMs <- Date_now ;;
  h <- getHeap ;;
  let (r, cs) := forEachClient nowMs capability (clients h) in
  modifyHeap (fun h => setClients h cs) ;;
  ret r.

Definition authorizeCanvasRequest
    (req : IncomingMessage) (auth : ResolvedGatewayAuth)
    (trustedProxies : list string) (canvasCapability : option string)
    (malformedScopedPath : bool) (rateLimiter : option AuthRateLimiter)
    : M Ext GatewayAuthResult :=
  if malformedScopedPath then ret authUnauthorized
  else
    isLocal <- callPure (EvIsLocalDirectRequest trustedProxies)
                 (isLocalDirectRequest env req trustedProxies) ;;
    if isLocal then ret authOk
    else
      token <- callPure EvGetBearerToken (getBearerToken env req) ;;
      (* the [if (token)] block: it returns ([inl]) or leaves
         [lastAuthFailure] behind ([inr]) *)
      bearer <-
        (if Js.truthyString token then
           let token := default EmptyString token in
           authResult <-
             call (EvAuthorizeGatewayConnect (withAllowTailscale auth false)
                     (Some {| ca_token := token; ca_password := token |})
                     trustedProxies rateLimiter)
                  (authorizeGatewayConnect env (withAllowTailscale auth false)
                     (Some {| ca_token := token; ca_password := token |})
                     req trustedProxies rateLimiter) ;;
           if ok authResult then ret (inl authResult)
           else ret (inr (Some authResult))
         else ret (inr None)) ;;
      match bearer with
      | inl authResult => ret authResult
      | inr lastAuthFailure =>
        granted <-
          (if Js.truthyString canvasCapability then
             hasAuthorizedNodeWsClientForCanvasCapability
               (default EmptyString canvasCapability)
           else ret false) ;;
        if granted then ret authOk
        else ret (default authUnauthorized lastAuthFailure)
      end.

(** [JSON.stringify] of the rate-limited error body. *)
Definition rateLimitedBody : string :=
  "{" ++ Js.DQ ++ "error" ++ Js.DQ ++ ":{"
      ++ Js.DQ ++ "message" ++ Js.DQ ++ ":" ++ Js.DQ
      ++ "Too many failed authentication attempts. Please try again later."
      ++ Js.DQ ++ ","
      ++ Js.DQ ++ "type" ++ Js.DQ ++ ":" ++ Js.DQ ++ "rate_limited" ++ Js.DQ
      ++ "}}".

(** [xs.filter(Boolean)] on an array of [string | undefined]. *)
Definition filterBoolean (xs : list (option string)) : list string :=
  omap (fun x => if Js.truthyString x then x else None) xs.

(** [retryAfterMs && retryAfterMs > 0 ? Math.ceil(retryAfterMs / 1000) : undefined] *)
Definition retryAfterSeconds (auth : GatewayAuthResult) : option Z :=
  match retryAfterMs auth with
  | Some ms =>
    if Js.truthyNumber (Some ms) && Z.ltb 0 ms then Some (Js.ceilDiv ms 1000)
    else None
  | None => None
  end.

(** The chunk [writeUpgradeAuthFailure] builds on the rate-limited path. *)
Definition rateLimitedChunk (auth : GatewayAuthResult) : string :=
  Js.join Js.CRLF
    (filterBoolean
       [ Some "HTTP/1.1 429 Too Many Requests";
         (match retryAfterSeconds auth with
          | Some s =>
            if Js.truthyNumber (Some s)
            then Some ("Retry-After: " ++ Js.numberToString s)
            else None
          | None => None
          end);
         Some "Content-Type: application/json; charset=utf-8";
         Some "Connection: close";
         Some EmptyString;
         Some rateLimitedBody ]).

Definition unauthorizedChunk : string :=
  "HTTP/1.1 401 Unauthorized" ++ Js.CRLF ++ "Connection: close" ++ Js.CRLF ++ Js.CRLF.

Definition writeUpgradeAuthFailure (auth : GatewayAuthResult) : M Ext unit :=
  if rateLimited auth then socket_write (rateLimitedChunk auth)
  else socket_write unauthorizedChunk.

(** [sendGatewayAuthFailure(res, auth)] *)
Definition sendAuthFailure (auth : GatewayAuthResult) : M Ext unit :=
  emit (EvSendGatewayAuthFailure auth) ;;
  modifyRes (fun r => sendGatewayAuthFailure env r auth).

(** A handler call followed by [if (handled) return;]. *)
Definition returnIfHandled (ev : Event) (h : Handler Ext) : Stmt unit :=
  handled <- call ev h ;;
  if handled then return_ tt else continue.

Definition methodNotAllowed (r : ServerResponse) : ServerResponse :=
  endWith
    (setHeader (setHeader (setStatusCode r 405) "Allow" "GET")
       "Content-Type" "text/plain; charset=utf-8")
    "Method Not Allowed".

Definition notFound (r : ServerResponse) : ServerResponse :=
  endWith
    (setHeader (setStatusCode r 404) "Content-Type" "text/plain; charset=utf-8")
    "Not Found".

Definition internalServerError (r : ServerResponse) : ServerResponse :=
  endWith
    (setHeader (setStatusCode r 500) "Content-Type" "text/plain; charset=utf-8")
    "Internal Server Error".

(** [handleRequest], from the health check to the final 404 (the
    statements after [requestPath] is computed). *)
Definition handleRequest_dispatch (opts : HttpServerOpts Ext)
    (configSnapshot : OpenClawConfig) (trustedProxies : list string)
    (scopedCanvas : NormalizedCanvasScopedUrl)
    (req : IncomingMessage) (requestPath : string) : Stmt unit :=
  (if isGatewayHealthPath requestPath then
     if negb (Js.strictEq (req_method req) (Some "GET")) then
       modifyRes methodNotAllowed ;; return_ tt
     else
       sendJson 200 gatewayHealthPayload ;; return_ tt
   else continue) ;;;
  returnIfHandled EvHandleHooksRequest (handleHooksRequest opts req) ;;;
  returnIfHandled EvHandleToolsInvokeHttpRequest
    (handleToolsInvokeHttpRequest env req (resolvedAuth opts) trustedProxies
       (rateLimiter opts)) ;;;
  returnIfHandled EvHandleSlackHttpRequest (handleSlackHttpRequest env req) ;;;
  (match handlePluginRequest opts with
   | Some handlePluginRequest =>
     (* Channel HTTP endpoints are gateway-auth protected by default.
        Non-channel plugin routes remain plugin-owned. *)
     (if Js.startsWith "/api/channels/" requestPath then
        token <- callPure EvGetBearerToken (getBearerToken env req) ;;
        let connectAuth :=
          if Js.truthyString token then
            Some {| ca_token := default EmptyString token;
                    ca_password := default EmptyString token |}
          else None in
        authResult <-
          call (EvAuthorizeGatewayConnect (resolvedAuth opts) connectAuth
                  trustedProxies (rateLimiter opts))
               (authorizeGatewayConnect env (resolvedAuth opts) connectAuth
                  req trustedProxies (rateLimiter opts)) ;;
        if negb (ok authResult) then
          sendAuthFailure authResult ;; return_ tt
        else continue
      else continue) ;;;
     returnIfHandled EvHandlePluginRequest (handlePluginRequest req)
   | None => continue
   end) ;;;
  (if openResponsesEnabled opts then
     returnIfHandled EvHandleOpenResponsesHttpRequest
       (handleOpenResponsesHttpRequest env req (resolvedAuth opts)
          trustedProxies (rateLimiter opts))
   else continue) ;;;
  (if openAiChatCompletionsEnabled opts then
     returnIfHandled EvHandleOpenAiHttpRequest
       (handleOpenAiHttpRequest env req (resolvedAuth opts) trustedProxies
          (rateLimiter opts))
   else continue) ;;;
  (match canvasHost opts with
   | Some canvasHost =>
     (if isCanvasPath requestPath then
        ok_ <- authorizeCanvasRequest req (resolvedAuth opts) trustedProxies
                 (capability scopedCanvas) (malformedScopedPath scopedCanvas)
                 (rateLimiter opts) ;;
        if negb (ok ok_) then
          sendAuthFailure ok_ ;; return_ tt
        else continue
      else continue) ;;;
     returnIfHandled EvHandleA2uiHttpRequest (handleA2uiHttpRequest env req) ;;;
     returnIfHandled EvCanvasHostHandleHttpRequest (handleHttpRequest canvasHost req)
   | None => continue
   end) ;;;
  (if controlUiEnabled opts then
     returnIfHandled EvHandleControlUiAvatarRequest
       (handleControlUiAvatarRequest env req (controlUiBasePath opts)) ;;;
     returnIfHandled EvHandleControlUiHttpRequest
       (handleControlUiHttpRequest env req (controlUiBasePath opts) configSnapshot)
   else continue) ;;;
  (modifyRes notFound ;; continue).

(** The body of the [try] block of [handleRequest]. *)
Definition handleRequest_try (opts : HttpServerOpts Ext)
    (req : IncomingMessage) : Stmt unit :=
  configSnapshot <- call EvLoadConfig (fun h => (loadConfig env h, h)) ;;
  let trustedProxies := default [] (gateway_trustedProxies configSnapshot) in
  scopedCanvas <-
    callOutcome (EvNormalizeCanvasScopedUrl (default "/" (req_url req)))
      (normalizeCanvasScopedUrl env (default "/" (req_url req))) ;;
  if malformedScopedPath scopedCanvas then
    sendAuthFailure authUnauthorized ;; return_ tt
  else
    let req :=
      if Js.truthyString (rewrittenUrl scopedCanvas)
      then setUrl req (default EmptyString (rewrittenUrl scopedCanvas))
      else req in
    requestPath <-
      callOutcome (EvUrlPathname (default "/" (req_url req)))
        (urlPathname env (default "/" (req_url req))) ;;
    handleRequest_dispatch opts configSnapshot trustedProxies scopedCanvas
      req requestPath.

(** [String(req.headers.upgrade ?? "").toLowerCase() === "websocket"] *)
Definition isWebSocketUpgrade (req : IncomingMessage) : bool :=
  String.eqb
    (Js.toLowerCase (default EmptyString (req_headers_upgrade req)))
    "websocket".

Definition handleRequest (opts : HttpServerOpts Ext)
    (req : IncomingMessage) : M Ext unit :=
  emit EvSetDefaultSecurityHeaders ;;
  modifyRes (setDefaultSecurityHeaders env) ;;
  (* Don't interfere with WebSocket upgrades; ws handles the 'upgrade' event. *)
  if isWebSocketUpgrade req then ret tt
  else
    tryCatch
      (runBody (handleRequest_try opts req))
      (modifyRes internalServerError).

(** The listener [attachGatewayUpgradeHandler] installs for ["upgrade"]:
    the async body. *)
Definition upgradeListener_body (opts : UpgradeOpts Ext)
    (req : IncomingMessage) : Stmt unit :=
  scopedCanvas <-
    callOutcome (EvNormalizeCanvasScopedUrl (default "/" (req_url req)))
      (normalizeCanvasScopedUrl env (default "/" (req_url req))) ;;
  if malformedScopedPath scopedCanvas then
    writeUpgradeAuthFailure authUnauthorized ;;
    socket_destroy ;;
    return_ tt
  else
    let req :=
      if Js.truthyString (rewrittenUrl scopedCanvas)
      then setUrl req (default EmptyString (rewrittenUrl scopedCanvas))
      else req in
    (match up_canvasHost opts with
     | Some canvasHost =>
       pathname <-
         callOutcome (EvUrlPathname (default "/" (req_url req)))
           (urlPathname env (default "/" (req_url req))) ;;
       (if String.eqb pathname (CANVAS_WS_PATH env) then
          configSnapshot <- call EvLoadConfig (fun h => (loadConfig env h, h)) ;;
          let trustedProxies := default [] (gateway_trustedProxies configSnapshot) in
          ok_ <- authorizeCanvasRequest req (up_resolvedAuth opts) trustedProxies
                   (capability scopedCanvas) (malformedScopedPath scopedCanvas)
                   (up_rateLimiter opts) ;;
          if negb (ok ok_) then
            writeUpgradeAuthFailure ok_ ;;
            socket_destroy ;;
            return_ tt
          else continue
        else continue) ;;;
       returnIfHandled EvCanvasHostHandleUpgrade (handleUpgrade canvasHost req)
     | None => continue
     end) ;;;
    (call EvWssHandleUpgrade (up_wss_handleUpgrade opts req) ;; continue).

(** The listener itself: the body runs under [.catch(() => socket.destroy())]. *)
Definition upgradeListener (opts : UpgradeOpts Ext)
    (req : IncomingMessage) : M Ext unit :=
  catchPromise (runBody (upgradeListener_body opts req)) socket_destroy.

End ServerHttpFunctions.

(** ** A concrete deployment, for running the model *)

Module Demo.

(** Collaborator state: the number of failed bearer attempts so far. *)
Definition Ext : Type := nat.

Definition declines : Handler Ext := fun h => (Returned false, h).
Definition claims : Handler Ext := fun h => (Returned true, h).
Definition crashes (msg : string) : Handler Ext := fun h => (Thrown msg, h).

(** A bearer check against the configured token that blocks after three
    failures, with a retry delay of 1500 ms. *)
Definition authorize (auth : ResolvedGatewayAuth) (connectAuth : option ConnectAuth)
    (_ : IncomingMessage) (_ : list string) (_ : option AuthRateLimiter)
    (h : Heap Ext) : Outcome GatewayAuthResult * Heap Ext :=
  if Nat.leb 3 (ext h) then
    (Returned {| ok := false; method := None; reason := Some "rate_limited";
                 rateLimited := true; retryAfterMs := Some 1500 |}, h)
  else
    match connectAuth, auth_token auth with
    | Some ca, Some expected =>
      if String.eqb (ca_token ca) expected then
        (Returned {| ok := true; method := Some "token"; reason := None;
                     rateLimited := false; retryAfterMs := None |}, h)
      else
        (Returned authUnauthorized,
         {| ext := S (ext h); nowMs := nowMs h; clients := clients h;
            res := res h; socket := socket h |})
    | _, _ => (Returned authUnauthorized, h)
    end.

Definition respondAuthFailure (r : ServerResponse) (auth : GatewayAuthResult)
    : ServerResponse :=
  if rateLimited auth then endWith (setStatusCode r 429) "rate_limited"
  else endWith (setStatusCode r 401) "unauthorized".

Definition env : Collaborators Ext :=
  {| A2UI_PATH := "/__openclaw__/a2ui";
     CANVAS_HOST_PATH := "/__openclaw__/canvas";
     CANVAS_WS_PATH := "/__openclaw__/ws";
     handleA2uiHttpRequest := fun _ => declines;
     loadConfig := fun _ => Returned {| gateway_trustedProxies := None |};
     safeEqualSecret := String.eqb;
     handleSlackHttpRequest := fun _ => declines;
     authorizeGatewayConnect := authorize;
     isLocalDirectRequest := fun req _ =>
       Js.strictEq (req_remoteAddress req) (Some "127.0.0.1");
     CANVAS_CAPABILITY_TTL_MS := 5000;
     normalizeCanvasScopedUrl := fun url =>
       if Js.startsWith "/__openclaw__/cap/%" url
       then Returned {| rewrittenUrl := None; capability := None;
                        malformedScopedPath := true |}
       else Returned {| rewrittenUrl := None; capability := None;
                        malformedScopedPath := false |};
     handleControlUiAvatarRequest := fun _ _ => declines;
     handleControlUiHttpRequest := fun _ _ _ => declines;
     sendGatewayAuthFailure := respondAuthFailure;
     setDefaultSecurityHeaders := fun r =>
       setHeader r "X-Content-Type-Options" "nosniff";
     getBearerToken := req_headers_authorization;
     handleOpenAiHttpRequest := fun _ _ _ _ => declines;
     handleOpenResponsesHttpRequest := fun _ _ _ _ => declines;
     GATEWAY_CLIENT_MODES_NODE := "node";
     normalizeGatewayClientMode := fun m => Some m;
     handleToolsInvokeHttpRequest := fun _ _ _ _ => declines;
     urlPathname := fun u => Returned u |}.

Definition freshRes : ServerResponse :=
  {| statusCode := 200; headers := []; body := None |}.

Definition freshSocket : Socket := {| written := []; destroyed := false |}.

Definition nodeSession (token : string) (expiresAtMs : Z) : GatewayWsClient :=
  {| connect_role := Some "node"; connect_client_mode := "node";
     canvasCapability := Some token;
     canvasCapabilityExpiresAtMs := Some expiresAtMs |}.

Definition uiSession : GatewayWsClient :=
  {| connect_role := Some "operator"; connect_client_mode := "ui";
     canvasCapability := None; canvasCapabilityExpiresAtMs := None |}.

Definition world (now : Z) (cs : list GatewayWsClient) : World Ext :=
  {| heap := {| ext := 0%nat; nowMs := now; clients := cs;
                res := freshRes; socket := freshSocket |};
     trace := [] |}.

Definition request (method url : string) : IncomingMessage :=
  {| req_method := Some method; req_url := Some url;
     req_headers_upgrade := None; req_headers_authorization := None;
     req_remoteAddress := Some "203.0.113.9" |}.

Definition tokenAuth : ResolvedGatewayAuth :=
  {| auth_mode := "token"; auth_token := Some "test-token";
     auth_password := None; allowTailscale := true |}.

Definition opts : HttpServerOpts Ext :=
  {| canvasHost := None;
     controlUiEnabled := false;
     controlUiBasePath := "/__control__";
     openAiChatCompletionsEnabled := false;
     openResponsesEnabled := false;
     handleHooksRequest := fun _ => declines;
     handlePluginRequest := None;
     resolvedAuth := tokenAuth;
     rateLimiter := None |}.

Definition malformedRequest : IncomingMessage :=
  request "GET" "/__openclaw__/cap/%zz/__openclaw__/canvas/".

Definition upgradeOpts : UpgradeOpts Ext :=
  {| up_wss_handleUpgrade := fun _ h => (Returned tt, h);
     up_canvasHost := None;
     up_resolvedAuth := tokenAuth;
     up_rateLimiter := None |}.

Definition localRequest : IncomingMessage :=
  {| req_method := Some "GET"; req_url := Some "/__openclaw__/canvas/";
     req_headers_upgrade := None; req_headers_authorization := Some "wrong";
     req_remoteAddress := Some "127.0.0.1" |}.

Definition remoteRequest (bearer : option string) : IncomingMessage :=
  {| req_method := Some "GET"; req_url := Some "/__openclaw__/canvas/";
     req_headers_upgrade := None; req_headers_authorization := bearer;
     req_remoteAddress := Some "203.0.113.9" |}.

(** A world in which the caller has already failed three times. *)
Definition blockedWorld (cs : list GatewayWsClient) : World Ext :=
  {| heap := {| ext := 3%nat; nowMs := 4000; clients := cs;
                res := freshRes; socket := freshSocket |};
     trace := [] |}.

Definition rateLimitedVerdict : GatewayAuthResult :=
  {| ok := false; method := None; reason := Some "rate_limited";
     rateLimited := true; retryAfterMs := Some 1500 |}.

Definition crashingOpts : HttpServerOpts Ext :=
  {| canvasHost := None;
     controlUiEnabled := false;
     controlUiBasePath := "/__control__";
     openAiChatCompletionsEnabled := false;
     openResponsesEnabled := false;
     handleHooksRequest := fun _ h =>
       (Thrown "ECONNRESET while using token test-token",
        setRes h (endWith (res h) "partial output"));
     handlePluginRequest := None;
     resolvedAuth := tokenAuth;
     rateLimiter := None |}.

(** A deployment with every optional stage switched on, in which every
    handler declines, except that the Slack relay claims the request when
    [slackClaims] is set. *)
Definition fullEnv (slackClaims : bool) : Collaborators Ext :=
  {| A2UI_PATH := A2UI_PATH env;
     CANVAS_HOST_PATH := CANVAS_HOST_PATH env;
     CANVAS_WS_PATH := CANVAS_WS_PATH env;
     handleA2uiHttpRequest := fun _ => declines;
     loadConfig := loadConfig env;
     safeEqualSecret := safeEqualSecret env;
     handleSlackHttpRequest := fun _ => if slackClaims then claims else declines;
     authorizeGatewayConnect := authorizeGatewayConnect env;
     isLocalDirectRequest := isLocalDirectRequest env;
     CANVAS_CAPABILITY_TTL_MS := CANVAS_CAPABILITY_TTL_MS env;
     normalizeCanvasScopedUrl := normalizeCanvasScopedUrl env;
     handleControlUiAvatarRequest := fun _ _ => declines;
     handleControlUiHttpRequest := fun _ _ _ => declines;
     sendGatewayAuthFailure := sendGatewayAuthFailure env;
     setDefaultSecurityHeaders := setDefaultSecurityHeaders env;
     getBearerToken := getBearerToken env;
     handleOpenAiHttpRequest := fun _ _ _ _ => declines;
     handleOpenResponsesHttpRequest := fun _ _ _ _ => declines;
     GATEWAY_CLIENT_MODES_NODE := GATEWAY_CLIENT_MODES_NODE env;
     normalizeGatewayClientMode := normalizeGatewayClientMode env;
     handleToolsInvokeHttpRequest := fun _ _ _ _ => declines;
     urlPathname := urlPathname env |}.

Definition fullOpts : HttpServerOpts Ext :=
  {| canvasHost :=
       Some {| handleHttpRequest := fun _ => declines;
               handleUpgrade := fun _ => declines |};
     controlUiEnabled := true;
     controlUiBasePath := "/__control__";
     openAiChatCompletionsEnabled := true;
     openResponsesEnabled := true;
     handleHooksRequest := fun _ => declines;
     handlePluginRequest := Some (fun _ => declines);
     resolvedAuth := tokenAuth;
     rateLimiter := Some 0%nat |}.

(** The full deployment with the normalizer and the bearer check replaced. *)
Definition customEnv
    (normalize : string -> Outcome NormalizedCanvasScopedUrl)
    (authorizeWith :
       ResolvedGatewayAuth -> option ConnectAuth -> IncomingMessage ->
       list string -> option AuthRateLimiter ->
       Heap Ext -> Outcome GatewayAuthResult * Heap Ext)
    : Collaborators Ext :=
  {| A2UI_PATH := A2UI_PATH env;
     CANVAS_HOST_PATH := CANVAS_HOST_PATH env;
     CANVAS_WS_PATH := CANVAS_WS_PATH env;
     handleA2uiHttpRequest := fun _ => declines;
     loadConfig := loadConfig env;
     safeEqualSecret := safeEqualSecret env;
     handleSlackHttpRequest := fun _ => declines;
     authorizeGatewayConnect := authorizeWith;
     isLocalDirectRequest := isLocalDirectRequest env;
     CANVAS_CAPABILITY_TTL_MS := CANVAS_CAPABILITY_TTL_MS env;
     normalizeCanvasScopedUrl := normalize;
     handleControlUiAvatarRequest := fun _ _ => declines;
     handleControlUiHttpRequest := fun _ _ _ => declines;
     sendGatewayAuthFailure := sendGatewayAuthFailure env;
     setDefaultSecurityHeaders := setDefaultSecurityHeaders env;
     getBearerToken := getBearerToken env;
     handleOpenAiHttpRequest := fun _ _ _ _ => declines;
     handleOpenResponsesHttpRequest := fun _ _ _ _ => declines;
     GATEWAY_CLIENT_MODES_NODE := GATEWAY_CLIENT_MODES_NODE env;
     normalizeGatewayClientMode := normalizeGatewayClientMode env;
     handleToolsInvokeHttpRequest := fun _ _ _ _ => declines;
     urlPathname := urlPathname env |}.

(** A normalizer that rejects every URL as unparseable, and a bearer
    check whose rate limiter is out of order. *)
Definition invalidUrl (_ : string) : Outcome NormalizedCanvasScopedUrl :=
  Thrown "TypeError: Invalid URL".

Definition limiterDown (_ : ResolvedGatewayAuth) (_ : option ConnectAuth)
    (_ : IncomingMessage) (_ : list string) (_ : option AuthRateLimiter)
    (h : Heap Ext) : Outcome GatewayAuthResult * Heap Ext :=
  (Thrown "rate limiter unavailable", h).

(** The world a request for [url] is in when it reaches the router of the
    demo deployment, and after the handlers [called] have declined. *)
Definition routerWorld (url : string) (called : list Event) : World Ext :=
  {| heap := setRes (heap (world 0 [])) (setDefaultSecurityHeaders env freshRes);
     trace := [ EvSetDefaultSecurityHeaders; EvLoadConfig;
                EvNormalizeCanvasScopedUrl url; EvUrlPathname url ] ++ called |}.

(** Options in which the plugin handler, respectively the canvas host,
    claims every request. *)
Definition pluginClaimsOpts : HttpServerOpts Ext :=
  {| canvasHost := None;
     controlUiEnabled := false;
     controlUiBasePath := "/__control__";
     openAiChatCompletionsEnabled := false;
     openResponsesEnabled := false;
     handleHooksRequest := fun _ => declines;
     handlePluginRequest := Some (fun _ => claims);
     resolvedAuth := tokenAuth;
     rateLimiter := None |}.

Definition claimingHost : CanvasHostHandler Ext :=
  {| handleHttpRequest := fun _ => claims; handleUpgrade := fun _ => claims |}.

Definition canvasClaimsOpts : HttpServerOpts Ext :=
  {| canvasHost := Some claimingHost;
     controlUiEnabled := false;
     controlUiBasePath := "/__control__";
     openAiChatCompletionsEnabled := false;
     openResponsesEnabled := false;
     handleHooksRequest := fun _ => declines;
     handlePluginRequest := None;
     resolvedAuth := tokenAuth;
     rateLimiter := None |}.

Definition canvasUpgradeOpts : UpgradeOpts Ext :=
  {| up_wss_handleUpgrade := fun _ h => (Returned tt, h);
     up_canvasHost := Some claimingHost;
     up_resolvedAuth := tokenAuth;
     up_rateLimiter := None |}.

Definition upgradeRequest (url : string) (remoteAddress : string) : IncomingMessage :=
  {| req_method := Some "GET"; req_url := Some url;
     req_headers_upgrade := Some "WebSocket"; req_headers_authorization := None;
     req_remoteAddress := Some remoteAddress |}.

Definition plainScoped : NormalizedCanvasScopedUrl :=
  {| rewrittenUrl := None; capability := None; malformedScopedPath := false |}.

Definition emptyConfig : OpenClawConfig := {| gateway_trustedProxies := None |}.

(** The demo deployment seen through a scoped URL: the normalizer strips
    the capability token T from the path, and the A2UI handler serves the
    page. *)
Definition scopedT : NormalizedCanvasScopedUrl :=
  {| rewrittenUrl := Some "/__openclaw__/canvas/index.html";
     capability := Some "T"; malformedScopedPath := false |}.

Definition scopedEnv : Collaborators Ext :=
  {| A2UI_PATH := A2UI_PATH env;
     CANVAS_HOST_PATH := CANVAS_HOST_PATH env;
     CANVAS_WS_PATH := CANVAS_WS_PATH env;
     handleA2uiHttpRequest := fun _ => claims;
     loadConfig := loadConfig env;
     safeEqualSecret := safeEqualSecret env;
     handleSlackHttpRequest := fun _ => declines;
     authorizeGatewayConnect := authorize;
     isLocalDirectRequest := isLocalDirectRequest env;
     CANVAS_CAPABILITY_TTL_MS := CANVAS_CAPABILITY_TTL_MS env;
     normalizeCanvasScopedUrl := fun _ => Returned scopedT;
     handleControlUiAvatarRequest := fun _ _ => declines;
     handleControlUiHttpRequest := fun _ _ _ => declines;
     sendGatewayAuthFailure := sendGatewayAuthFailure env;
     setDefaultSecurityHeaders := setDefaultSecurityHeaders env;
     getBearerToken := getBearerToken env;
     handleOpenAiHttpRequest := fun _ _ _ _ => declines;
     handleOpenResponsesHttpRequest := fun _ _ _ _ => declines;
     GATEWAY_CLIENT_MODES_NODE := GATEWAY_CLIENT_MODES_NODE env;
     normalizeGatewayClientMode := normalizeGatewayClientMode env;
     handleToolsInvokeHttpRequest := fun _ _ _ _ => declines;
     urlPathname := urlPathname env |}.

(** A hooks handler that sets a header and throws, quoting the gateway
    token, before it has sent anything. *)
Definition throwingOpts : HttpServerOpts Ext :=
  {| canvasHost := None;
     controlUiEnabled := false;
     controlUiBasePath := "/__control__";
     openAiChatCompletionsEnabled := false;
     openResponsesEnabled := false;
     handleHooksRequest := fun _ h =>
       (Thrown "ECONNRESET while using token test-token",
        setRes h (setHeader (res h) "X-Hook" "started"));
     handlePluginRequest := None;
     resolvedAuth := tokenAuth;
     rateLimiter := None |}.

End Demo.

(** ** The capability check, read off the session set *)

Section CapabilityRegistry.

Context {Ext : Type} (env : Collaborators Ext).

(** A session holds a capability token when both fields are set, the
    way the code tests them: a non-empty token string and a non-zero
    expiry timestamp. *)
Definition holdsCapability (client : GatewayWsClient) (stored : string)
    (expiresAtMs : Z) : Prop :=
  canvasCapability client = Some stored /\ stored <> EmptyString /\
  canvasCapabilityExpiresAtMs client = Some expiresAtMs /\ expiresAtMs <> 0.

(** A session grants the presented token at time [now]: it is node-class,
    it holds a token whose expiry lies strictly after [now], and the
    stored token equals the presented one under the secret comparison. *)
Definition sessionGrants (now : Z) (presented : string)
    (client : GatewayWsClient) : Prop :=
  isNodeWsClient env client = true /\
  exists stored expiresAtMs,
    holdsCapability client stored expiresAtMs /\
    now < expiresAtMs /\
    safeEqualSecret env stored presented = true.

(** The same test as a boolean, as one iteration of the loop decides it. *)
Definition sessionGrantsb (now : Z) (presented : string)
    (client : GatewayWsClient) : bool :=
  isNodeWsClient env client
  && Js.truthyString (canvasCapability client)
  && Js.truthyNumber (canvasCapabilityExpiresAtMs client)
  && match canvasCapability client, canvasCapabilityExpiresAtMs client with
     | Some stored, Some expiresAtMs =>
       negb (Z.leb expiresAtMs now) && safeEqualSecret env stored presented
     | _, _ => false
     end.

(** The session renewed at time [now]. *)
Definition renewed (now : Z) (client : GatewayWsClient) : GatewayWsClient :=
  setExpiresAtMs client (now + CANVAS_CAPABILITY_TTL_MS env).


(** The log entry of the bearer check the resolver makes for token [t]. *)
Definition bearerCall (auth : ResolvedGatewayAuth) (t : string)
    (trustedProxies : list string) (rateLimiter : option AuthRateLimiter) : Event :=
  EvAuthorizeGatewayConnect (withAllowTailscale auth false)
    (Some {| ca_token := t; ca_password := t |}) trustedProxies rateLimiter.

(** The capability registry grants the request in heap [h]: a capability
    token was extracted from the path and some live node session grants it. *)
Definition registryGrants (canvasCapability : option string) (h : Heap Ext) : Prop :=
  Js.truthyString canvasCapability = true
  /\ Exists (sessionGrants (nowMs h) (default EmptyString canvasCapability))
       (clients h).

End CapabilityRegistry.

(** ** The resolver and the router, as the design describes them *)

Section DocumentedDesign.

Context {Ext : Type} (env : Collaborators Ext).

(** A log entry respects the canvas rule for Tailscale trust: a gateway
    authentication check is made with the configured trust settings
    except that implicit Tailscale trust is off. *)
Definition tailscaleForcedOff (auth : ResolvedGatewayAuth) (ev : Event) : Prop :=
  match ev with
  | EvAuthorizeGatewayConnect a _ _ _ =>
    a = withAllowTailscale auth false /\ allowTailscale a = false
  | _ => True
  end.

(** Renewal never shortens: whenever the check succeeds, no session's
    stored expiry is smaller afterwards than it was before. *)
Definition RenewalNeverShortens : Prop :=
  forall (presented : string) (w w' : World Ext),
    hasAuthorizedNodeWsClientForCanvasCapability env presented w
    = (Returned true, w') ->
    forall (i : nat) (before after : GatewayWsClient) (e e' : Z),
      clients (heap w) !! i = Some before ->
      clients (heap w') !! i = Some after ->
      canvasCapabilityExpiresAtMs before = Some e ->
      canvasCapabilityExpiresAtMs after = Some e' ->
      e <= e'.

(** A candidate handler of the router: it reports whether it fully
    handled the request. *)
Definition Stage : Type := M Ext bool.

Definition skipped : Stage := ret false.

(** Try [s1]; if it declines, try [s2]. *)
Definition orElse (s1 s2 : Stage) : Stage :=
  handled <- s1 ;;
  if handled then ret true else s2.

(** Run [check] first; a denial is answered with an authorization
    failure, which finishes the request, and only an authorized request
    reaches [s]. *)
Definition gatedBy (check : M Ext GatewayAuthResult) (s : Stage) : Stage :=
  verdict <- check ;;
  if ok verdict then s
  else sendAuthFailure env verdict ;; ret true.

Inductive StageName : Type :=
| HealthCheck
| HooksHandler
| ToolsInvoke
| SlackRelay
| PluginRoutes
| OpenResponsesProxy
| OpenAiChatProxy
| CanvasHost
| ControlDashboard.

(** The fixed priority order of the router. *)
Definition documentedOrder : list StageName :=
  [ HealthCheck; HooksHandler; ToolsInvoke; SlackRelay; PluginRoutes;
    OpenResponsesProxy; OpenAiChatProxy; CanvasHost; ControlDashboard ].

(** The gateway re-authorization applied to channel plugin routes. *)
Definition channelReauthorization (opts : HttpServerOpts Ext)
    (trustedProxies : list string) (req : IncomingMessage)
    : M Ext GatewayAuthResult :=
  token <- callPure EvGetBearerToken (getBearerToken env req) ;;
  let connectAuth :=
    match token with
    | Some t =>
      if String.eqb t EmptyString then None
      else Some {| ca_token := t; ca_password := t |}
    | None => None
    end in
  call (EvAuthorizeGatewayConnect (resolvedAuth opts) connectAuth
          trustedProxies (rateLimiter opts))
       (authorizeGatewayConnect env (resolvedAuth opts) connectAuth req
          trustedProxies (rateLimiter opts)).

(** What each stage of the router does with a request whose normalized
    path is [requestPath]. *)
Definition stage (opts : HttpServerOpts Ext) (configSnapshot : OpenClawConfig)
    (trustedProxies : list string) (scopedCanvas : NormalizedCanvasScopedUrl)
    (req : IncomingMessage) (requestPath : string) (name : StageName) : Stage :=
  match name with
  | HealthCheck =>
    if isGatewayHealthPath requestPath then
      (if Js.strictEq (req_method req) (Some "GET")
       then sendJson 200 gatewayHealthPayload
       else modifyRes methodNotAllowed) ;;
      ret true
    else skipped
  | HooksHandler => call EvHandleHooksRequest (handleHooksRequest opts req)
  | ToolsInvoke =>
    call EvHandleToolsInvokeHttpRequest
      (handleToolsInvokeHttpRequest env req (resolvedAuth opts) trustedProxies
         (rateLimiter opts))
  | SlackRelay => call EvHandleSlackHttpRequest (handleSlackHttpRequest env req)
  | PluginRoutes =>
    match handlePluginRequest opts with
    | Some plugin =>
      if Js.startsWith "/api/channels/" requestPath
      then gatedBy (channelReauthorization opts trustedProxies req)
             (call EvHandlePluginRequest (plugin req))
      else call EvHandlePluginRequest (plugin req)
    | None => skipped
    end
  | OpenResponsesProxy =>
    if openResponsesEnabled opts then
      call EvHandleOpenResponsesHttpRequest
        (handleOpenResponsesHttpRequest env req (resolvedAuth opts)
           trustedProxies (rateLimiter opts))
    else skipped
  | OpenAiChatProxy =>
    if openAiChatCompletionsEnabled opts then
      call EvHandleOpenAiHttpRequest
        (handleOpenAiHttpRequest env req (resolvedAuth opts) trustedProxies
           (rateLimiter opts))
    else skipped
  | CanvasHost =>
    match canvasHost opts with
    | Some host =>
      let handlers :=
        orElse (call EvHandleA2uiHttpRequest (handleA2uiHttpRequest env req))
               (call EvCanvasHostHandleHttpRequest (handleHttpRequest host req)) in
      if isCanvasPath env requestPath
      then gatedBy
             (authorizeCanvasRequest env req (resolvedAuth opts) trustedProxies
                (capability scopedCanvas) (malformedScopedPath scopedCanvas)
                (rateLimiter opts))
             handlers
      else handlers
    | None => skipped
    end
  | ControlDashboard =>
    if controlUiEnabled opts then
      orElse
        (call EvHandleControlUiAvatarRequest
           (handleControlUiAvatarRequest env req (controlUiBasePath opts)))
        (call EvHandleControlUiHttpRequest
           (handleControlUiHttpRequest env req (controlUiBasePath opts)
              configSnapshot))
    else skipped
  end.

(** Try the stages in order, stop at the first one that handled the
    request, and answer 404 Not Found when none did. *)
Fixpoint runChain (stages : list Stage) : M Ext unit :=
  match stages with
  | [] => modifyRes notFound
  | s :: rest =>
    handled <- s ;;
    if handled then ret tt else runChain rest
  end.

(** The world a non-upgrade request reaches the router in: the security
    headers are set and the config, the normalizer and the URL parser
    have been called. *)
Definition atRouter (w : World Ext) (rawUrl routedUrl : string) : World Ext :=
  {| heap := setRes (heap w) (setDefaultSecurityHeaders env (res (heap w)));
     trace := trace w ++
       [ EvSetDefaultSecurityHeaders; EvLoadConfig;
         EvNormalizeCanvasScopedUrl rawUrl; EvUrlPathname routedUrl ] |}.

(** The request as the router sees it: the URL rewritten when the
    normalizer produced a canonical one. *)
Definition routedRequest (req : IncomingMessage)
    (scopedCanvas : NormalizedCanvasScopedUrl) : IncomingMessage :=
  match rewrittenUrl scopedCanvas with
  | Some u => if String.eqb u EmptyString then req else setUrl req u
  | None => req
  end.

End DocumentedDesign.

(** ** Further notions used to state properties of the code *)

Section FurtherNotions.

Context {Ext : Type} (env : Collaborators Ext).

(** Every stored expiry of the session set is at most [bound]. *)
Definition expiriesWithin (bound : Z) (cs : list GatewayWsClient) : Prop :=
  Forall (fun c => forall e, canvasCapabilityExpiresAtMs c = Some e -> e <= bound) cs.

(** Running the stages one after the other from world [w], every one of
    them declines, and the last leaves the world [w']. *)
Fixpoint allDecline (stages : list (M Ext bool)) (w w' : World Ext) : Prop :=
  match stages with
  | [] => w' = w
  | s :: rest => exists w1, s w = (Returned false, w1) /\ allDecline rest w1 w'
  end.

(** [token ? { token, password: token } : null] *)
Definition connectAuthOf (token : option string) : option ConnectAuth :=
  if Js.truthyString token then
    Some {| ca_token := default EmptyString token;
            ca_password := default EmptyString token |}
  else None.

(** The stages the router tries before the plugin routes, and those it
    tries before the canvas host. *)
Definition stagesBeforePlugin : list StageName :=
  [ HealthCheck; HooksHandler; ToolsInvoke; SlackRelay ].

Definition stagesBeforeCanvas : list StageName :=
  [ HealthCheck; HooksHandler; ToolsInvoke; SlackRelay; PluginRoutes;
    OpenResponsesProxy; OpenAiChatProxy ].

(** Handing an upgrade to the canvas host and, if it declines, to the
    WebSocket server, from world [w]; an exception on the way destroys the
    socket. *)
Definition handedOff (opts : UpgradeOpts Ext) (host : CanvasHostHandler Ext)
    (req : IncomingMessage) (w : World Ext) : Outcome unit * World Ext :=
  let destroyedAfter (h : Heap Ext) (tr : list Event) :=
    (Returned tt,
     {| heap := setSocket h {| written := written (socket h); destroyed := true |};
        trace := tr ++ [EvSocketDestroy] |}) in
  match handleUpgrade host req (heap w) with
  | (Returned true, h1) =>
    (Returned tt, {| heap := h1; trace := trace w ++ [EvCanvasHostHandleUpgrade] |})
  | (Returned false, h1) =>
    match up_wss_handleUpgrade opts req h1 with
    | (Returned _, h2) =>
      (Returned tt,
       {| heap := h2;
          trace := trace w ++ [EvCanvasHostHandleUpgrade; EvWssHandleUpgrade] |})
    | (Thrown _, h2) =>
      destroyedAfter h2 (trace w ++ [EvCanvasHostHandleUpgrade; EvWssHandleUpgrade])%list
    end
  | (Thrown _, h1) => destroyedAfter h1 (trace w ++ [EvCanvasHostHandleUpgrade])%list
  end.

End FurtherNotions.

(** ** The response once it has been sent *)

Section SentResponse.

Context {Ext : Type} (env : Collaborators Ext).

(** In this model a response goes on the wire through [end]: a response
    whose body is set has had its status line and headers flushed, and is
    finished.  The record then stands for what the client was sent. *)
Definition headersSent (r : ServerResponse) : bool :=
  match body r with
  | Some _ => true
  | None => false
  end.

Definition ERR_HTTP_HEADERS_SENT : Exn := "ERR_HTTP_HEADERS_SENT".

(** [res.statusCode = s]: once the status line is on the wire the
    assignment no longer reaches the client. *)
Definition assignStatusCode (r : ServerResponse) (s : Z) : ServerResponse :=
  if headersSent r then r else setStatusCode r s.

(** [res.setHeader(name, value)] of node:http: it throws once the headers
    have been sent. *)
Definition res_setHeader (r : ServerResponse) (name value : string)
    : Outcome ServerResponse :=
  if headersSent r then Thrown ERR_HTTP_HEADERS_SENT
  else Returned (setHeader r name value).

(** [res.end(chunk)] of node:http: a finished response stays as it was
    sent. *)
Definition res_end (r : ServerResponse) (chunk : string) : ServerResponse :=
  if headersSent r then r else endWith r chunk.

(** The [catch] block of [handleRequest] (lines 346-350) on such a
    response. *)
Definition handleRequest_catch : M Ext unit :=
  modifyRes (fun r => assignStatusCode r 500) ;;
  h <- getHeap ;;
  r <- liftOutcome
         (res_setHeader (res h) "Content-Type" "text/plain; charset=utf-8") ;;
  modifyHeap (fun h => setRes h r) ;;
  modifyRes (fun r => res_end r "Internal Server Error").

(** [handleRequest] with its [catch] block run on the response as
    node:http keeps it; the [try] block is the one of [handleRequest]. *)
Definition handleRequestOnNode (opts : HttpServerOpts Ext)
    (req : IncomingMessage) : M Ext unit :=
  emit EvSetDefaultSecurityHeaders ;;
  modifyRes (setDefaultSecurityHeaders env) ;;
  if isWebSocketUpgrade req then ret tt
  else
    tryCatch
      (runBody (handleRequest_try env opts req))
      handleRequest_catch.

(** The world in which the [try] block of [handleRequest] starts. *)
Definition atTry (w : World Ext) : World Ext :=
  {| heap := setRes (heap w) (setDefaultSecurityHeaders env (res (heap w)));
     trace := trace w ++ [EvSetDefaultSecurityHeaders] |}.

(** Every failure of the [try] block ends in the fixed 500 response. *)
Definition EveryDispatchFailureGets500 : Prop :=
  forall (opts : HttpServerOpts Ext) (req : IncomingMessage)
         (w w' : World Ext) (e : Exn),
    isWebSocketUpgrade req = false ->
    runBody (handleRequest_try env opts req) (atTry w) = (Thrown e, w') ->
    exists w'',
      handleRequestOnNode opts req w = (Returned tt, w'')
      /\ statusCode (res (heap w'')) = 500
      /\ body (res (heap w'')) = Some "Internal Server Error".

End SentResponse.

(** The body of an HTTP message: what follows the first empty line. *)
Definition httpBody (message : string) : option string :=
  match String.index 0 (Js.CRLF ++ Js.CRLF) message with
  | Some n => Some (String.substring (n + 4) (String.length message - (n + 4)) message)
  | None => None
  end.

(** * Properties *)

(** ** The monad *)

Section MonadFacts.

Context {Ext : Type}.

Lemma bind_returned {A B} (m : M Ext A) (k : A -> M Ext B) w a w' :
  m w = (Returned a, w') -> bind m k w = k a w'.
Proof. intros H. unfold bind. now rewrite H. Qed.

Lemma bind_thrown {A B} (m : M Ext A) (k : A -> M Ext B) w e w' :
  m w = (Thrown e, w') -> bind m k w = (Thrown e, w').
Proof. intros H. unfold bind. now rewrite H. Qed.

Lemma bind_ext {A B} (m m' : M Ext A) (k k' : A -> M Ext B) w :
  m w = m' w -> (forall a w', k a w' = k' a w') -> bind m k w = bind m' k' w.
Proof.
  intros Hm Hk. unfold bind. rewrite Hm.
  destruct (m' w) as [[a|e] w']; auto.
Qed.

Lemma tryCatch_returned {A} (body handler : M Ext A) w a w' :
  body w = (Returned a, w') -> tryCatch body handler w = (Returned a, w').
Proof. intros H. unfold tryCatch. now rewrite H. Qed.

Lemma tryCatch_thrown {A} (body handler : M Ext A) w e w' :
  body w = (Thrown e, w') -> tryCatch body handler w = handler w'.
Proof. intros H. unfold tryCatch. now rewrite H. Qed.

Lemma callPure_run {A} ev (a : A) (w : World Ext) :
  callPure ev a w = (Returned a, {| heap := heap w; trace := trace w ++ [ev] |}).
Proof. reflexivity. Qed.

Lemma call_run {A} ev (f : Heap Ext -> Outcome A * Heap Ext) (w : World Ext) :
  call ev f w =
  (fst (f (heap w)), {| heap := snd (f (heap w)); trace := trace w ++ [ev] |}).
Proof.
  unfold call, bind, emit, liftHeap. simpl. now destruct (f (heap w)).
Qed.

Lemma callOutcome_run {A} ev (o : Outcome A) (w : World Ext) :
  callOutcome ev o w = (o, {| heap := heap w; trace := trace w ++ [ev] |}).
Proof. unfold callOutcome, bind, emit, liftOutcome. reflexivity. Qed.

End MonadFacts.

(** ** The capability check *)

Section CapabilityFacts.

Context {Ext : Type} (env : Collaborators Ext).

Lemma truthyString_Some s :
  Js.truthyString (Some s) = true <-> s <> EmptyString.
Proof.
  simpl. rewrite negb_true_iff. split.
  - intros H ->. now rewrite String.eqb_refl in H.
  - intros H. now apply String.eqb_neq.
Qed.

Lemma truthyNumber_Some n :
  Js.truthyNumber (Some n) = true <-> n <> 0.
Proof.
  simpl. rewrite negb_true_iff. split.
  - intros H ->. now rewrite Z.eqb_refl in H.
  - intros H. now apply Z.eqb_neq.
Qed.

Lemma sessionGrantsb_iff now presented client :
  sessionGrantsb env now presented client = true
  <-> sessionGrants env now presented client.
Proof.
  unfold sessionGrantsb, sessionGrants, holdsCapability.
  destruct client as [role mode cap exp]; simpl.
  split.
  - intros H.
    destruct cap as [stored|]; [|rewrite !andb_false_r in H || idtac;
      repeat (apply andb_prop in H; destruct H as [H ?]); discriminate].
    destruct exp as [e|].
    2:{ repeat (apply andb_prop in H; destruct H as [H ?]); discriminate. }
    apply andb_prop in H as [H Hm].
    apply andb_prop in H as [H He].
    apply andb_prop in H as [Hn Hs].
    apply andb_prop in Hm as [Hlt Heq].
    split; [exact Hn|].
    exists stored, e.
    rewrite negb_true_iff in Hlt. apply Z.leb_gt in Hlt.
    repeat split; auto.
    + now apply truthyString_Some.
    + now apply truthyNumber_Some.
  - intros [Hn (stored & e & (Hc & Hs & He & Hz) & Hlt & Heq)].
    subst cap exp. rewrite Hn.
    apply truthyString_Some in Hs. apply truthyNumber_Some in Hz.
    rewrite Hs, Hz, Heq. simpl.
    apply Z.leb_gt in Hlt. now rewrite Hlt.
Qed.

Lemma sessionGrantsb_false now presented client :
  sessionGrantsb env now presented client = false
  <-> ~ sessionGrants env now presented client.
Proof.
  rewrite <- sessionGrantsb_iff. now destruct (sessionGrantsb _ _ _ _).
Qed.

(** One iteration of the loop: renew and return on a grant, otherwise go
    on with the next session. *)
Lemma forEachClient_cons now presented client rest :
  forEachClient env now presented (client :: rest) =
  if sessionGrantsb env now presented client
  then (true, renewed env now client :: rest)
  else let (r, rest') := forEachClient env now presented rest in
       (r, client :: rest').
Proof.
  unfold sessionGrantsb, renewed. simpl.
  destruct (isNodeWsClient env client); simpl; [|reflexivity].
  destruct (Js.truthyString (canvasCapability client)) eqn:Hs; simpl; [|reflexivity].
  destruct (Js.truthyNumber (canvasCapabilityExpiresAtMs client)) eqn:Hn; simpl;
    [|reflexivity].
  destruct (canvasCapability client) as [stored|]; [|discriminate].
  destruct (canvasCapabilityExpiresAtMs client) as [e|]; [|discriminate].
  destruct (Z.leb e now); simpl; [reflexivity|].
  destruct (safeEqualSecret env stored presented); reflexivity.
Qed.

(** The loop finds the first granting session, renews it and nothing
    else; without a granting session it changes nothing. *)
Lemma forEachClient_spec now presented (cs : list GatewayWsClient) :
  (forEachClient env now presented cs = (false, cs)
   /\ Forall (fun c => ~ sessionGrants env now presented c) cs)
  \/
  (exists (i : nat) client,
     cs !! i = Some client
     /\ sessionGrants env now presented client
     /\ (forall (j : nat) c, (j < i)%nat -> cs !! j = Some c ->
           ~ sessionGrants env now presented c)
     /\ forEachClient env now presented cs
        = (true, <[i := renewed env now client]> cs)).
Proof.
  induction cs as [|c rest IH].
  - left. split; [reflexivity | constructor].
  - rewrite forEachClient_cons.
    destruct (sessionGrantsb env now presented c) eqn:Hc.
    + right. exists 0%nat, c.
      split; [reflexivity|].
      split; [now apply sessionGrantsb_iff|].
      split; [intros j c' Hj; lia | reflexivity].
    + apply sessionGrantsb_false in Hc.
      destruct IH as [[Heq Hall] | (i & client & Hi & Hg & Hbefore & Heq)].
      * left. rewrite Heq. split; [reflexivity | now constructor].
      * right. exists (S i), client. rewrite Heq.
        split; [exact Hi|]. split; [exact Hg|]. split; [|reflexivity].
        intros [|j] c' Hj Hl; simpl in Hl.
        -- now inversion Hl; subst.
        -- apply (Hbefore j); [lia | exact Hl].
Qed.

End CapabilityFacts.

Section CapabilityTheorems.

Context {Ext : Type} (env : Collaborators Ext).

Lemma setClients_same (h : Heap Ext) : setClients h (clients h) = h.
Proof. now destruct h. Qed.

(** Running the check: one clock read, then the loop over the shared set. *)
Lemma hasAuthorized_run presented (w : World Ext) :
  hasAuthorizedNodeWsClientForCanvasCapability env presented w =
  (Returned (fst (forEachClient env (nowMs (heap w)) presented (clients (heap w)))),
   {| heap := setClients (heap w)
                (snd (forEachClient env (nowMs (heap w)) presented (clients (heap w))));
      trace := trace w ++ [EvDateNow] |}).
Proof.
  unfold hasAuthorizedNodeWsClientForCanvasCapability, Date_now, call, bind,
    emit, liftHeap, getHeap, modifyHeap, ret. simpl.
  destruct (forEachClient env (nowMs (heap w)) presented (clients (heap w))).
  reflexivity.
Qed.

(** C1.  The capability check returns true exactly when some session of
    the set is node-class, holds a capability token whose stored expiry
    is strictly after the current time, and whose stored token equals the
    presented one under the secret comparison (a session holds a token
    when its token field is a non-empty string and its expiry field is a
    non-zero number, the way the code tests the two optional fields).  In
    that case the first such session, and only it, gets the expiry
    now + TTL; otherwise the check returns false and the set is left as it
    was.  The check never throws and reads the clock once. *)
Theorem capability_check_iff_live_node_session
    (presented : string) (w : World Ext) :
  let now := nowMs (heap w) in
  let cs := clients (heap w) in
  exists (b : bool) (cs' : list GatewayWsClient),
    hasAuthorizedNodeWsClientForCanvasCapability env presented w
    = (Returned b,
       {| heap := setClients (heap w) cs'; trace := trace w ++ [EvDateNow] |})
    /\ (b = true <-> Exists (sessionGrants env now presented) cs)
    /\ (b = true ->
        exists (i : nat) client,
          cs !! i = Some client
          /\ sessionGrants env now presented client
          /\ (forall (j : nat) c, (j < i)%nat -> cs !! j = Some c ->
                ~ sessionGrants env now presented c)
          /\ cs' = <[i := setExpiresAtMs client (now + CANVAS_CAPABILITY_TTL_MS env)]> cs)
    /\ (b = false -> cs' = cs).
Proof.
  intros now cs.
  exists (fst (forEachClient env now presented cs)),
         (snd (forEachClient env now presented cs)).
  split; [apply hasAuthorized_run|].
  destruct (forEachClient_spec env now presented cs)
    as [[Heq Hall] | (i & client & Hi & Hg & Hbefore & Heq)]; rewrite Heq; simpl.
  - split; [|split]; [| discriminate | reflexivity].
    split; [discriminate|].
    intros Hex. apply Exists_exists in Hex as (c & Hin & Hc).
    rewrite Forall_forall in Hall. exfalso. exact (Hall c Hin Hc).
  - split; [|split]; [| | discriminate].
    + split; [|reflexivity]. intros _.
      apply Exists_exists. exists client. split; [|exact Hg].
      eapply list_elem_of_lookup_2. exact Hi.
    + intros _. exists i, client. auto.
Qed.

(** Without a holder of [T] the loop finds nothing to grant. *)
Lemma check_false_without_holder
    (T : string) (w : World Ext)
    (Hsound : forall a b, safeEqualSecret env a b = true -> a = b)
    (Hnone : Forall (fun c => canvasCapability c <> Some T) (clients (heap w))) :
  hasAuthorizedNodeWsClientForCanvasCapability env T w
  = (Returned false, {| heap := heap w; trace := trace w ++ [EvDateNow] |}).
Proof.
  rewrite hasAuthorized_run.
  destruct (forEachClient_spec env (nowMs (heap w)) T (clients (heap w)))
    as [[Heq _] | (i & client & Hi & Hg & _ & _)].
  - rewrite Heq. simpl. now rewrite setClients_same.
  - exfalso.
    destruct Hg as [_ (stored & e & (Hc & _) & _ & Heq)].
    apply Hsound in Heq. subst stored.
    rewrite Forall_forall in Hnone. apply (Hnone client); [|exact Hc].
    eapply list_elem_of_lookup_2. exact Hi.
Qed.

(** C2.  When no session of the set holds the token T, the capability
    check returns false and changes nothing, whatever the clock says: the
    session set is the only ground truth.  The secret comparison is taken
    to accept identical strings only. *)
Theorem capability_denied_without_holder
    (T : string) (w : World Ext)
    (Hsound : forall a b, safeEqualSecret env a b = true -> a = b)
    (Hnone : Forall (fun c => canvasCapability c <> Some T) (clients (heap w))) :
  hasAuthorizedNodeWsClientForCanvasCapability env T w
  = (Returned false, {| heap := heap w; trace := trace w ++ [EvDateNow] |}).
Proof. exact (check_false_without_holder T w Hsound Hnone). Qed.

(** Removing the only session that holds T revokes T at once, at any
    clock value. *)
Lemma capability_revoked_on_disconnect
    (T : string) (h : Heap Ext) (tr : list Event) (i : nat)
    (Hsound : forall a b, safeEqualSecret env a b = true -> a = b)
    (Honly : forall (j : nat) c, clients h !! j = Some c ->
               canvasCapability c = Some T -> j = i) :
  hasAuthorizedNodeWsClientForCanvasCapability env T
    {| heap := setClients h (delete i (clients h)); trace := tr |}
  = (Returned false,
     {| heap := setClients h (delete i (clients h)); trace := tr ++ [EvDateNow] |}).
Proof.
  apply check_false_without_holder; [exact Hsound|]. simpl.
  apply Forall_forall. intros c Hin HT.
  apply list_elem_of_lookup_1 in Hin as [j Hj].
  rewrite list_lookup_delete in Hj.
  destruct (decide (j < i)%nat) as [Hlt|Hge].
  - specialize (Honly j c Hj HT). lia.
  - specialize (Honly (S j) c Hj HT). lia.
Qed.

(** With a clock that reads a non-negative number of milliseconds, an
    expiry strictly after now is non-zero by itself: a session grants
    exactly when it is node-class, its token field is a non-empty string
    accepted by the comparison, and its expiry lies strictly after now. *)
Lemma sessionGrants_nonneg_clock (now : Z) (presented : string)
    (client : GatewayWsClient) :
  0 <= now ->
  (sessionGrants env now presented client
   <-> isNodeWsClient env client = true
       /\ exists stored expiresAtMs,
            canvasCapability client = Some stored /\ stored <> EmptyString
            /\ canvasCapabilityExpiresAtMs client = Some expiresAtMs
            /\ now < expiresAtMs
            /\ safeEqualSecret env stored presented = true).
Proof.
  intros Hnow. unfold sessionGrants, holdsCapability. split.
  - intros [Hn (stored & e & (Hc & Hs & He & _) & Hlt & Heq)].
    split; [exact Hn|]. exists stored, e. auto.
  - intros [Hn (stored & e & Hc & Hs & He & Hlt & Heq)].
    split; [exact Hn|]. exists stored, e.
    repeat split; auto. lia.
Qed.

End CapabilityTheorems.

(** ** The auth resolver *)

Ltac unfold_monad :=
  unfold runBody, seqStmt, returnIfHandled, return_, continue, sendAuthFailure,
    sendJson, socket_write, socket_destroy, Date_now, modifyRes, callOutcome,
    callPure, call, catchPromise, tryCatch, bind, emit, liftHeap, liftOutcome,
    getHeap, modifyHeap, throw, ret in *.

Ltac flatten_trace := repeat rewrite <- app_assoc; simpl app.

Section ResolverTheorems.

Context {Ext : Type} (env : Collaborators Ext).

Lemma forEachClient_true_iff now presented cs :
  fst (forEachClient env now presented cs) = true
  <-> Exists (sessionGrants env now presented) cs.
Proof.
  destruct (forEachClient_spec env now presented cs)
    as [[Heq Hall] | (i & client & Hi & Hg & _ & Heq)]; rewrite Heq; simpl.
  - split; [discriminate|]. intros Hex.
    apply Exists_exists in Hex as (c & Hin & Hc).
    rewrite Forall_forall in Hall. exfalso. exact (Hall c Hin Hc).
  - split; [|reflexivity]. intros _. apply Exists_exists.
    exists client. split; [|exact Hg]. eapply list_elem_of_lookup_2. exact Hi.
Qed.

Lemma forEachClient_false now presented cs :
  fst (forEachClient env now presented cs) = false ->
  snd (forEachClient env now presented cs) = cs.
Proof.
  destruct (forEachClient_spec env now presented cs)
    as [[Heq _] | (i & client & _ & _ & _ & Heq)]; rewrite Heq; simpl;
    [reflexivity | discriminate].
Qed.

(** The last two statements of the resolver, started in world [w] with
    [lastAuthFailure] as given. *)
Lemma capability_phase canvasCapability (last : option GatewayAuthResult)
    (w : World Ext) :
  let m : M Ext GatewayAuthResult :=
    (granted <-
       (if Js.truthyString canvasCapability then
          hasAuthorizedNodeWsClientForCanvasCapability env
            (default EmptyString canvasCapability)
        else ret false) ;;
     if granted then ret authOk
     else ret (default authUnauthorized last)) in
  (registryGrants env canvasCapability (heap w) ->
     m w = (Returned authOk,
            {| heap := setClients (heap w)
                 (snd (forEachClient env (nowMs (heap w))
                         (default EmptyString canvasCapability) (clients (heap w))));
               trace := trace w ++ [EvDateNow] |}))
  /\ (~ registryGrants env canvasCapability (heap w) ->
      m w = (Returned (default authUnauthorized last),
             {| heap := heap w;
                trace := trace w ++
                  (if Js.truthyString canvasCapability then [EvDateNow] else []) |})).
Proof.
  intros m. subst m. unfold registryGrants, bind.
  destruct (Js.truthyString canvasCapability) eqn:Hcap.
  - rewrite hasAuthorized_run.
    destruct (fst (forEachClient env (nowMs (heap w))
                (default EmptyString canvasCapability) (clients (heap w)))) eqn:Hf.
    + split; [reflexivity|]. intros Hn. exfalso. apply Hn. split; [reflexivity|].
      now apply forEachClient_true_iff.
    + split.
      * intros [_ Hex]. apply forEachClient_true_iff in Hex. congruence.
      * intros _. rewrite (forEachClient_false _ _ _ Hf), setClients_same.
        reflexivity.
  - split; [intros [H _]; discriminate|]. intros _. unfold ret.
    rewrite app_nil_r. now destruct w.
Qed.

(** C4.  A non-malformed request from a trusted-proxy / local-direct
    origin is authorized at once: the only call that leaves the resolver
    is the origin test, so no bearer credential is extracted, the gateway
    authentication check (the one holder of the rate limiter) is not
    invoked, the clock and the session set are not read, and the heap is
    unchanged. *)
Theorem local_direct_request_authorized_immediately
    (req : IncomingMessage) (auth : ResolvedGatewayAuth)
    (trustedProxies : list string) (canvasCapability : option string)
    (rateLimiter : option AuthRateLimiter) (w : World Ext)
    (Hlocal : isLocalDirectRequest env req trustedProxies = true) :
  authorizeCanvasRequest env req auth trustedProxies canvasCapability false
    rateLimiter w
  = (Returned authOk,
     {| heap := heap w;
        trace := trace w ++ [EvIsLocalDirectRequest trustedProxies] |}).
Proof.
  unfold authorizeCanvasRequest. unfold_monad. simpl. now rewrite Hlocal.
Qed.

(** C5.  For a request that is neither malformed nor local-direct the
    resolver extracts the bearer credential first.  A credential that is
    present is checked once, offered both as token and as password; if
    that check authorizes, its verdict is returned at once and the
    capability registry is not consulted.  Only otherwise is the registry
    consulted, and only with a capability token extracted from the path;
    a grant returns an authorized verdict.  When neither succeeds the
    verdict is the denial the bearer check produced (rate-limited or
    not), and a bare unauthorized one when no credential was presented. *)
Theorem resolver_tries_bearer_then_capability
    (req : IncomingMessage) (auth : ResolvedGatewayAuth)
    (trustedProxies : list string) (canvasCapability : option string)
    (rateLimiter : option AuthRateLimiter) (w : World Ext)
    (Hlocal : isLocalDirectRequest env req trustedProxies = false) :
  let run :=
    authorizeCanvasRequest env req auth trustedProxies canvasCapability false
      rateLimiter w in
  let renewedClients (h : Heap Ext) :=
    snd (forEachClient env (nowMs h) (default EmptyString canvasCapability)
           (clients h)) in
  let clockRead : list Event :=
    if Js.truthyString canvasCapability then [EvDateNow] else [] in
  let tr0 := (trace w ++ [EvIsLocalDirectRequest trustedProxies; EvGetBearerToken])%list in
  (forall (t : string) (r : GatewayAuthResult) (h' : Heap Ext),
      getBearerToken env req = Some t -> t <> EmptyString ->
      authorizeGatewayConnect env (withAllowTailscale auth false)
        (Some {| ca_token := t; ca_password := t |}) req trustedProxies
        rateLimiter (heap w) = (Returned r, h') ->
      let tr1 := (tr0 ++ [bearerCall auth t trustedProxies rateLimiter])%list in
      (ok r = true -> run = (Returned r, {| heap := h'; trace := tr1 |}))
      /\ (ok r = false -> registryGrants env canvasCapability h' ->
          run = (Returned authOk,
                 {| heap := setClients h' (renewedClients h');
                    trace := tr1 ++ [EvDateNow] |}))
      /\ (ok r = false -> ~ registryGrants env canvasCapability h' ->
          run = (Returned r, {| heap := h'; trace := tr1 ++ clockRead |})))
  /\
  (Js.truthyString (getBearerToken env req) = false ->
      (registryGrants env canvasCapability (heap w) ->
         run = (Returned authOk,
                {| heap := setClients (heap w) (renewedClients (heap w));
                   trace := tr0 ++ [EvDateNow] |}))
      /\ (~ registryGrants env canvasCapability (heap w) ->
          run = (Returned authUnauthorized,
                 {| heap := heap w; trace := tr0 ++ clockRead |}))).
Proof.
  intros run renewedClients clockRead tr0. subst run.
  unfold authorizeCanvasRequest.
  rewrite (bind_returned _ _ _ _ _ (callPure_run _ _ _)), Hlocal.
  rewrite (bind_returned _ _ _ _ _ (callPure_run _ _ _)).
  simpl heap; simpl trace. flatten_trace. fold tr0.
  split.
  - intros t r h' Ht Hne Hcall. rewrite Ht.
    set (tr1 := (tr0 ++ [bearerCall auth t trustedProxies rateLimiter])%list).
    apply truthyString_Some in Hne. rewrite Hne. simpl default.
    set (w0 := {| heap := heap w; trace := tr0 |}).
    assert (Hrun : call (bearerCall auth t trustedProxies rateLimiter)
              (authorizeGatewayConnect env (withAllowTailscale auth false)
                 (Some {| ca_token := t; ca_password := t |}) req
                 trustedProxies rateLimiter) w0
            = (Returned r, {| heap := h'; trace := tr1 |})).
    { rewrite call_run. simpl. now rewrite Hcall. }
    unfold bearerCall in Hrun.
    destruct (ok r) eqn:Hok.
    + split; [|split]; [intros _ | discriminate | discriminate].
      erewrite bind_returned.
      2:{ erewrite bind_returned by exact Hrun. rewrite Hok. reflexivity. }
      reflexivity.
    + split; [discriminate|].
      erewrite bind_returned.
      2:{ erewrite bind_returned by exact Hrun. rewrite Hok. reflexivity. }
      destruct (capability_phase canvasCapability (Some r)
                  {| heap := h'; trace := tr1 |}) as [Hyes Hno].
      split; intros _ Hg.
      * exact (Hyes Hg).
      * exact (Hno Hg).
  - intros Hnone. rewrite Hnone.
    erewrite bind_returned by reflexivity.
    destruct (capability_phase canvasCapability None
                {| heap := heap w; trace := tr0 |}) as [Hyes Hno].
    split; intros Hg.
    + exact (Hyes Hg).
    + exact (Hno Hg).
Qed.

End ResolverTheorems.

(** ** The request router *)

Section RouterTheorems.

Context {Ext : Type} (env : Collaborators Ext).

Lemma runBody_seq (s rest : Stmt (Ext := Ext) unit) (w : World Ext) :
  runBody (s ;;; rest) w =
  (r <- s ;; if bool_decide (is_Some r) then ret tt else runBody rest) w.
Proof.
  unfold runBody, seqStmt, bind, ret.
  destruct (s w) as [[[[]|]|e] w1]; simpl; reflexivity.
Qed.

(** A statement that behaves as stage [stg] (it returns exactly when the
    stage reports the request handled), followed by statements that
    behave as the chain [chain]. *)
Lemma runBody_stage (s rest : Stmt (Ext := Ext) unit) (stg : Stage)
    (chain : list Stage) :
  (forall w, (r <- s ;; ret (bool_decide (is_Some r))) w = stg w) ->
  (forall w, runBody rest w = runChain chain w) ->
  forall w, runBody (s ;;; rest) w = runChain (stg :: chain) w.
Proof.
  intros Hs Hrest w. rewrite runBody_seq. simpl runChain.
  specialize (Hs w). unfold bind, ret in *.
  destruct (s w) as [[r|e] w1]; rewrite <- Hs; [|reflexivity].
  destruct r as [[]|]; simpl; [reflexivity | apply Hrest].
Qed.

Ltac crunch :=
  unfold gatedBy, orElse, skipped, channelReauthorization;
  unfold_monad; simpl;
  repeat (match goal with
          | |- context [negb ?b] => destruct b eqn:?; simpl
          | |- context [match ?x with _ => _ end] =>
            lazymatch x with
            | context [match _ with _ => _ end] => fail
            | _ =>
              lazymatch type of x with
              | bool => destruct x eqn:?
              | prod (Outcome _) _ => destruct x as [[?|?] ?] eqn:?
              | option _ => destruct x eqn:?
              end
            end; simpl
          end);
  try reflexivity; try congruence.

Lemma returnIfHandled_stage ev (h : Handler Ext) w :
  (r <- returnIfHandled ev h ;; ret (bool_decide (is_Some r))) w = call ev h w.
Proof. crunch. Qed.

(** The statements of [handleRequest] after [requestPath] is computed are
    the router chain in the fixed priority order. *)
Lemma dispatch_is_chain opts configSnapshot trustedProxies scopedCanvas req
    requestPath (w : World Ext) :
  runBody (handleRequest_dispatch env opts configSnapshot trustedProxies
             scopedCanvas req requestPath) w
  = runChain
      (map (stage env opts configSnapshot trustedProxies scopedCanvas req
              requestPath) documentedOrder) w.
Proof.
  revert w. unfold handleRequest_dispatch, documentedOrder. simpl map.
  apply runBody_stage.
  { intros w. crunch. }
  apply runBody_stage; [apply returnIfHandled_stage|].
  apply runBody_stage; [apply returnIfHandled_stage|].
  apply runBody_stage; [apply returnIfHandled_stage|].
  apply runBody_stage.
  { intros w. unfold stage. destruct (handlePluginRequest opts) as [plugin|].
    - destruct (Js.startsWith "/api/channels/" requestPath).
      + unfold gatedBy, channelReauthorization. unfold_monad. simpl.
        destruct (getBearerToken env req) as [t|]; simpl;
          [destruct (String.eqb t EmptyString) eqn:Ht; simpl|]; crunch.
      + crunch.
    - crunch. }
  apply runBody_stage.
  { intros w. unfold stage. destruct (openResponsesEnabled opts); crunch. }
  apply runBody_stage.
  { intros w. unfold stage. destruct (openAiChatCompletionsEnabled opts); crunch. }
  apply runBody_stage.
  { intros w. unfold stage. destruct (canvasHost opts) as [host|]; [|crunch].
    destruct (isCanvasPath env requestPath).
    - unfold gatedBy, orElse, seqStmt, returnIfHandled, bind.
      destruct (authorizeCanvasRequest env req (resolvedAuth opts) trustedProxies
                  (capability scopedCanvas) (malformedScopedPath scopedCanvas)
                  (rateLimiter opts) w) as [[v|e] w1]; [|reflexivity].
      destruct (ok v); simpl; [|crunch].
      unfold continue, ret. crunch.
    - crunch. }
  apply runBody_stage.
  { intros w. unfold stage. destruct (controlUiEnabled opts); crunch. }
  intros w. reflexivity.
Qed.

Lemma runBody_bind {A} (m : M Ext A) (k : A -> Stmt (Ext := Ext) unit) w :
  runBody (x <- m ;; k x) w = (x <- m ;; runBody (k x)) w.
Proof.
  unfold runBody, bind. destruct (m w) as [[a|e] w1]; reflexivity.
Qed.

Lemma routedRequest_eq req scopedCanvas :
  (if Js.truthyString (rewrittenUrl scopedCanvas)
   then setUrl req (default EmptyString (rewrittenUrl scopedCanvas))
   else req)
  = routedRequest req scopedCanvas.
Proof.
  unfold routedRequest. destruct (rewrittenUrl scopedCanvas) as [u|]; simpl;
    [destruct (String.eqb u EmptyString)|]; reflexivity.
Qed.

(** The [try] block of [handleRequest] for a request that passes the
    config read, the normalizer and the URL parser: what is left is the
    router chain. *)
Lemma handleRequest_try_routes opts req (w : World Ext) cfg sc path :
  loadConfig env (heap w) = Returned cfg ->
  normalizeCanvasScopedUrl env (default "/" (req_url req)) = Returned sc ->
  malformedScopedPath sc = false ->
  urlPathname env (default "/" (req_url (routedRequest req sc))) = Returned path ->
  runBody (handleRequest_try env opts req) w
  = runChain
      (map (stage env opts cfg (default [] (gateway_trustedProxies cfg)) sc
              (routedRequest req sc) path) documentedOrder)
      {| heap := heap w;
         trace := trace w ++
           [ EvLoadConfig;
             EvNormalizeCanvasScopedUrl (default "/" (req_url req));
             EvUrlPathname (default "/" (req_url (routedRequest req sc))) ] |}.
Proof.
  intros Hcfg Hnorm Hmal Hpath. unfold handleRequest_try.
  rewrite runBody_bind.
  erewrite bind_returned by (rewrite call_run; simpl; rewrite Hcfg; reflexivity).
  rewrite runBody_bind.
  erewrite bind_returned by (rewrite callOutcome_run, Hnorm; reflexivity).
  rewrite Hmal, routedRequest_eq.
  rewrite runBody_bind.
  erewrite bind_returned by (rewrite callOutcome_run, Hpath; reflexivity).
  rewrite dispatch_is_chain. simpl heap. simpl trace. flatten_trace.
  reflexivity.
Qed.

Lemma handleRequest_unfold opts req (w : World Ext) :
  handleRequest env opts req w =
  let w1 := {| heap := setRes (heap w) (setDefaultSecurityHeaders env (res (heap w)));
               trace := trace w ++ [EvSetDefaultSecurityHeaders] |} in
  if isWebSocketUpgrade req then (Returned tt, w1)
  else tryCatch (runBody (handleRequest_try env opts req))
         (modifyRes internalServerError) w1.
Proof.
  unfold handleRequest, bind, emit, modifyRes, modifyHeap, ret. simpl.
  destruct (isWebSocketUpgrade req); reflexivity.
Qed.


End RouterTheorems.

(** ** Failures of the dispatch *)

Section DispatchFailure.

Context {Ext : Type} (env : Collaborators Ext).

Lemma setRes_same (h : Heap Ext) : setRes h (res h) = h.
Proof. now destruct h. Qed.

(** The [catch] block on a response of which nothing has been sent. *)
Lemma catch_before_send (w : World Ext) :
  headersSent (res (heap w)) = false ->
  handleRequest_catch w
  = (Returned tt,
     {| heap := setRes (heap w) (internalServerError (res (heap w)));
        trace := trace w |}).
Proof.
  intros Hsent.
  assert (Hbody : body (res (heap w)) = None).
  { unfold headersSent in Hsent. destruct (body (res (heap w)));
      [discriminate | reflexivity]. }
  unfold handleRequest_catch, assignStatusCode, res_setHeader, res_end,
    headersSent.
  unfold_monad. cbn. rewrite Hbody. cbn.
  unfold internalServerError, setHeader, setStatusCode, endWith. cbn.
  rewrite Hbody. reflexivity.
Qed.

(** The [catch] block on a response that has been sent. *)
Lemma catch_after_send (w : World Ext) :
  headersSent (res (heap w)) = true ->
  handleRequest_catch w = (Thrown ERR_HTTP_HEADERS_SENT, w).
Proof.
  intros Hsent. unfold handleRequest_catch. unfold_monad. simpl.
  unfold assignStatusCode, res_setHeader. rewrite Hsent. simpl.
  rewrite Hsent. rewrite setRes_same. now destruct w.
Qed.

Lemma handleRequestOnNode_unfold opts req (w : World Ext) :
  handleRequestOnNode env opts req w =
  if isWebSocketUpgrade req then (Returned tt, atTry env w)
  else tryCatch (runBody (handleRequest_try env opts req))
         handleRequest_catch (atTry env w).
Proof.
  unfold handleRequestOnNode, atTry, bind, emit, modifyRes, modifyHeap, ret.
  simpl. destruct (isWebSocketUpgrade req); reflexivity.
Qed.

(** As long as the [try] block returns, or throws before anything has
    been sent, the listener on node:http's response does what
    [handleRequest] does. *)
Lemma handleRequestOnNode_agrees opts req (w : World Ext) :
  (forall e w', runBody (handleRequest_try env opts req) (atTry env w)
                = (Thrown e, w') ->
                headersSent (res (heap w')) = false) ->
  handleRequestOnNode env opts req w = handleRequest env opts req w.
Proof.
  intros Hfresh. rewrite handleRequestOnNode_unfold, handleRequest_unfold.
  cbv zeta. fold (atTry env w).
  destruct (isWebSocketUpgrade req); [reflexivity|].
  unfold tryCatch.
  destruct (runBody (handleRequest_try env opts req) (atTry env w))
    as [[[]|e] w'] eqn:Hrun; [reflexivity|].
  rewrite (catch_before_send w' (Hfresh e w' eq_refl)). reflexivity.
Qed.

(** C8 (amended).  When the [try] block of [handleRequest] throws while
    nothing of the response has been sent, the listener returns normally
    and the response is status 500 with the fixed body and a plain-text
    content type; the headers set before the throw stay.  When the
    response had already been sent, it stands as sent.  In both cases the
    outcome is the same whatever was thrown and whoever threw it: it
    depends on the state at the throw only. *)
Theorem dispatch_failure_before_send_becomes_500
    (opts : HttpServerOpts Ext) (req : IncomingMessage) (w w' : World Ext)
    (e : Exn)
    (Hup : isWebSocketUpgrade req = false)
    (Hthrow : runBody (handleRequest_try env opts req) (atTry env w)
              = (Thrown e, w')) :
  let thrownAt := res (heap w') in
  let out := handleRequestOnNode env opts req w in
  (headersSent thrownAt = false ->
     let final := internalServerError thrownAt in
     out = (Returned tt, {| heap := setRes (heap w') final; trace := trace w' |})
     /\ statusCode final = 500
     /\ body final = Some "Internal Server Error"
     /\ headers final
        = (List.filter (fun h => negb (String.eqb (fst h) "Content-Type"))
             (headers thrownAt)
           ++ [("Content-Type", "text/plain; charset=utf-8")])%list)
  /\ (headersSent thrownAt = true -> res (heap (snd out)) = thrownAt)
  /\ (forall (tryBlock : M Ext unit) (e2 : Exn),
        tryBlock (atTry env w) = (Thrown e2, w') ->
        tryCatch tryBlock handleRequest_catch (atTry env w) = out).
Proof.
  intros thrownAt out.
  assert (Hout : out = handleRequest_catch w').
  { subst out. rewrite handleRequestOnNode_unfold, Hup.
    apply tryCatch_thrown with (e := e). exact Hthrow. }
  split; [|split].
  - intros Hfresh final. rewrite Hout, (catch_before_send w' Hfresh).
    repeat split.
  - intros Hsent. rewrite Hout, (catch_after_send w' Hsent). reflexivity.
  - intros tryBlock e2 Hthrow2. rewrite Hout.
    apply tryCatch_thrown with (e := e2). exact Hthrow2.
Qed.

End DispatchFailure.

(** ** Failing closed *)

Section FailClosedTheorems.

Context {Ext : Type} (env : Collaborators Ext).

(** C3.  A request whose URL the normalizer flags as malformed is denied
    on every path.  On the HTTP path (config read succeeded) the only
    calls made are the header setter, the config read, the normalizer and
    the authorization-failure responder with a bare unauthorized verdict:
    no health check, no handler of the router chain.  On the upgrade path
    the bare 401 response is written to the socket and the socket is
    destroyed; no upgrade handler is called.  The auth resolver, called
    with the malformed flag set, returns the bare unauthorized verdict
    without any call and without touching the world. *)
Theorem malformed_scoped_path_fails_closed
    (req : IncomingMessage) (sc : NormalizedCanvasScopedUrl)
    (Hnorm : normalizeCanvasScopedUrl env (default "/" (req_url req)) = Returned sc)
    (Hmal : malformedScopedPath sc = true) :
  (forall (opts : HttpServerOpts Ext) (w : World Ext) (cfg : OpenClawConfig),
      isWebSocketUpgrade req = false ->
      loadConfig env
        (setRes (heap w) (setDefaultSecurityHeaders env (res (heap w))))
      = Returned cfg ->
      handleRequest env opts req w
      = (Returned tt,
         {| heap := setRes (heap w)
                      (sendGatewayAuthFailure env
                         (setDefaultSecurityHeaders env (res (heap w)))
                         authUnauthorized);
            trace := trace w ++
              [ EvSetDefaultSecurityHeaders; EvLoadConfig;
                EvNormalizeCanvasScopedUrl (default "/" (req_url req));
                EvSendGatewayAuthFailure authUnauthorized ] |}))
  /\ (forall (opts : UpgradeOpts Ext) (w : World Ext),
        upgradeListener env opts req w
        = (Returned tt,
           {| heap := setSocket (heap w)
                        {| written := written (socket (heap w)) ++ [unauthorizedChunk];
                           destroyed := true |};
              trace := trace w ++
                [ EvNormalizeCanvasScopedUrl (default "/" (req_url req));
                  EvSocketWrite unauthorizedChunk; EvSocketDestroy ] |}))
  /\ (forall auth trustedProxies canvasCapability rateLimiter (w : World Ext),
        authorizeCanvasRequest env req auth trustedProxies canvasCapability
          true rateLimiter w
        = (Returned authUnauthorized, w)).
Proof.
  split; [|split].
  - intros opts w cfg Hup Hcfg.
    rewrite handleRequest_unfold, Hup. cbv zeta.
    erewrite tryCatch_returned; [reflexivity|].
    unfold handleRequest_try. rewrite runBody_bind.
    erewrite bind_returned by (rewrite call_run; simpl; rewrite Hcfg; reflexivity).
    rewrite runBody_bind.
    erewrite bind_returned by (rewrite callOutcome_run, Hnorm; reflexivity).
    rewrite Hmal. unfold_monad. simpl. flatten_trace. reflexivity.
  - intros opts w. unfold upgradeListener, catchPromise.
    erewrite tryCatch_returned; [reflexivity|].
    unfold upgradeListener_body. rewrite runBody_bind.
    erewrite bind_returned by (rewrite callOutcome_run, Hnorm; reflexivity).
    rewrite Hmal. unfold writeUpgradeAuthFailure. unfold_monad. simpl.
    flatten_trace. reflexivity.
  - intros. reflexivity.
Qed.

(** C10.  Every gateway authentication check the canvas resolver makes
    is made with Tailscale implicit trust off and the configuration
    otherwise as given, and the resolver's outcome does not depend on the
    configured Tailscale setting at all. *)
Theorem canvas_bearer_check_forces_tailscale_off
    (req : IncomingMessage) (auth : ResolvedGatewayAuth)
    (trustedProxies : list string) (canvasCapability : option string)
    (malformed : bool) (rateLimiter : option AuthRateLimiter) (w : World Ext) :
  (exists tr : list Event,
      trace (snd (authorizeCanvasRequest env req auth trustedProxies
                    canvasCapability malformed rateLimiter w))
      = (trace w ++ tr)%list
      /\ Forall (tailscaleForcedOff auth) tr)
  /\ (forall v : bool,
        authorizeCanvasRequest env req (withAllowTailscale auth v)
          trustedProxies canvasCapability malformed rateLimiter w
        = authorizeCanvasRequest env req auth trustedProxies canvasCapability
            malformed rateLimiter w).
Proof.
  split; [|intros v; reflexivity].
  unfold authorizeCanvasRequest.
  destruct malformed.
  { exists []. split; [now rewrite app_nil_r | constructor]. }
  rewrite (bind_returned _ _ _ _ _ (callPure_run _ _ _)).
  destruct (isLocalDirectRequest env req trustedProxies).
  { eexists. split; [reflexivity | repeat constructor]. }
  rewrite (bind_returned _ _ _ _ _ (callPure_run _ _ _)).
  simpl heap. simpl trace.
  assert (Hcap : forall last (w0 : World Ext) tr0,
             trace w0 = (trace w ++ tr0)%list ->
             Forall (tailscaleForcedOff auth) tr0 ->
             exists tr,
               trace (snd ((granted <-
                   (if Js.truthyString canvasCapability then
                      hasAuthorizedNodeWsClientForCanvasCapability env
                        (default EmptyString canvasCapability)
                    else ret false) ;;
                   if granted then ret authOk
                   else ret (default authUnauthorized last)) w0))
               = (trace w ++ tr)%list
               /\ Forall (tailscaleForcedOff auth) tr).
  { intros last w0 tr0 Htr Hall. unfold bind.
    destruct (Js.truthyString canvasCapability).
    - rewrite hasAuthorized_run.
      exists (tr0 ++ [EvDateNow])%list.
      split.
      + destruct (fst _); simpl; rewrite Htr; now rewrite app_assoc.
      + apply Forall_app. split; [exact Hall | repeat constructor].
    - exists tr0. split; [exact Htr | exact Hall]. }
  destruct (Js.truthyString (getBearerToken env req)).
  - unfold bind at 1. unfold bind at 1. rewrite call_run.
    match goal with
    | |- context [authorizeGatewayConnect ?a1 ?a2 ?a3 ?a4 ?a5 ?a6 ?a7] =>
      destruct (authorizeGatewayConnect a1 a2 a3 a4 a5 a6 a7) as [[r|e] h']
    end; simpl fst; simpl snd.
    + destruct (ok r).
      * eexists. split; [simpl; flatten_trace; reflexivity|].
        repeat constructor.
      * eapply Hcap.
        -- simpl. flatten_trace. reflexivity.
        -- repeat constructor.
    + eexists. split; [simpl; flatten_trace; reflexivity|].
      repeat constructor.
  - erewrite bind_returned by reflexivity.
    eapply Hcap.
    + simpl. flatten_trace. reflexivity.
    + repeat constructor.
Qed.

End FailClosedTheorems.

(** ** Sliding renewal *)

Section RenewalTheorems.

Context {Ext : Type} (env : Collaborators Ext).

(** C6 (amended).  After a successful match the matched session (the
    first one that grants) has the stored expiry now + TTL, with its role,
    client mode and token as before, and every other session is
    unchanged.  Hence no session's stored expiry that was at most
    now + TTL before the match is smaller afterwards; a prior expiry
    beyond now + TTL is overwritten with now + TTL. *)
Theorem renewal_extends_expiry_within_ttl
    (presented : string) (w w' : World Ext)
    (Hrun : hasAuthorizedNodeWsClientForCanvasCapability env presented w
            = (Returned true, w')) :
  exists (i : nat) (matched renewedSession : GatewayWsClient) (e : Z),
    clients (heap w) !! i = Some matched
    /\ sessionGrants env (nowMs (heap w)) presented matched
    /\ canvasCapabilityExpiresAtMs matched = Some e
    /\ clients (heap w') !! i = Some renewedSession
    /\ canvasCapabilityExpiresAtMs renewedSession
       = Some (nowMs (heap w) + CANVAS_CAPABILITY_TTL_MS env)
    /\ connect_role renewedSession = connect_role matched
    /\ connect_client_mode renewedSession = connect_client_mode matched
    /\ canvasCapability renewedSession = canvasCapability matched
    /\ (forall j : nat, j <> i ->
          clients (heap w') !! j = clients (heap w) !! j)
    /\ length (clients (heap w')) = length (clients (heap w))
    /\ (forall (j : nat) before after e0 e1,
          clients (heap w) !! j = Some before ->
          clients (heap w') !! j = Some after ->
          canvasCapabilityExpiresAtMs before = Some e0 ->
          canvasCapabilityExpiresAtMs after = Some e1 ->
          e0 <= nowMs (heap w) + CANVAS_CAPABILITY_TTL_MS env ->
          e0 <= e1).
Proof.
  rewrite hasAuthorized_run in Hrun. inversion Hrun as [[Hb Hw]]. clear Hrun.
  subst w'. simpl.
  destruct (forEachClient_spec env (nowMs (heap w)) presented (clients (heap w)))
    as [[Heq _] | (i & client & Hi & Hg & _ & Heq)];
    rewrite Heq in *; simpl in *; [discriminate|].
  assert (Hlt : (i < length (clients (heap w)))%nat)
    by (eapply lookup_lt_Some; exact Hi).
  destruct Hg as [Hn (stored & e & (Hc & Hs & He & Hz) & Hnow & Heqs)].
  exists i, client, (renewed env (nowMs (heap w)) client), e.
  split; [exact Hi|].
  split; [split; [exact Hn|]; exists stored, e; repeat split; auto|].
  split; [exact He|].
  split; [apply list_lookup_insert_eq; exact Hlt|].
  split; [reflexivity|].
  split; [reflexivity|].
  split; [reflexivity|].
  split; [reflexivity|].
  split; [intros j Hj; apply list_lookup_insert_ne; congruence|].
  split; [apply length_insert|].
  intros j before after e0 e1 Hbefore Hafter He0 He1 Hbound.
  destruct (decide (i = j)) as [->|Hne].
  - rewrite list_lookup_insert_eq in Hafter by exact Hlt.
    inversion Hafter; subst after. simpl in He1. inversion He1; subst e1.
    exact Hbound.
  - rewrite list_lookup_insert_ne in Hafter by exact Hne.
    rewrite Hbefore in Hafter. inversion Hafter; subst after.
    rewrite He0 in He1. inversion He1. lia.
Qed.

End RenewalTheorems.

(** ** The upgrade failure response *)

Section UpgradeFailureFacts.

Context {Ext : Type}.

(** Rounding up to whole seconds. *)
Lemma ceilDiv_is_ceiling (n d : Z) :
  0 < d -> n <= Js.ceilDiv n d * d /\ (Js.ceilDiv n d - 1) * d < n.
Proof.
  intros Hd. unfold Js.ceilDiv.
  pose proof (Z.div_mod (- n) d ltac:(lia)) as Hdm.
  pose proof (Z.mod_pos_bound (- n) d Hd) as Hm.
  nia.
Qed.

(** The delay offered to a rate-limited caller: present exactly for a
    positive [retryAfterMs], and then that many milliseconds rounded up. *)
Lemma retryAfterSeconds_spec (auth : GatewayAuthResult) :
  match retryAfterMs auth with
  | Some ms =>
    if Z.ltb 0 ms then retryAfterSeconds auth = Some (Js.ceilDiv ms 1000)
    else retryAfterSeconds auth = None
  | None => retryAfterSeconds auth = None
  end.
Proof.
  unfold retryAfterSeconds. destruct (retryAfterMs auth) as [ms|]; [|reflexivity].
  destruct (Z.ltb 0 ms) eqn:Hpos.
  - apply Z.ltb_lt in Hpos. simpl.
    destruct (Z.eqb_spec ms 0); [lia | reflexivity].
  - now rewrite andb_false_r.
Qed.

(** A verdict that is not rate-limited gets the bare 401 response. *)
Lemma writeUpgradeAuthFailure_unauthorized (auth : GatewayAuthResult)
    (w : World Ext) :
  rateLimited auth = false ->
  writeUpgradeAuthFailure auth w
  = (Returned tt,
     {| heap := setSocket (heap w)
                  {| written := written (socket (heap w)) ++ [unauthorizedChunk];
                     destroyed := destroyed (socket (heap w)) |};
        trace := trace w ++ [EvSocketWrite unauthorizedChunk] |}).
Proof. intros H. unfold writeUpgradeAuthFailure. now rewrite H. Qed.

End UpgradeFailureFacts.

Section UpgradeGateFacts.

Context {Ext : Type} (env : Collaborators Ext).

(** A denied upgrade on the canvas WebSocket endpoint: the failure response
    is written, the socket is destroyed, and neither the canvas host's nor
    the WebSocket server's upgrade handler is reached. *)
Lemma denied_canvas_upgrade_destroys_socket
    (opts : UpgradeOpts Ext) (host : CanvasHostHandler Ext)
    (req : IncomingMessage) (w w' : World Ext)
    (sc : NormalizedCanvasScopedUrl) (cfg : OpenClawConfig)
    (verdict : GatewayAuthResult) :
  normalizeCanvasScopedUrl env (default "/" (req_url req)) = Returned sc ->
  malformedScopedPath sc = false ->
  up_canvasHost opts = Some host ->
  urlPathname env (default "/" (req_url (routedRequest req sc)))
  = Returned (CANVAS_WS_PATH env) ->
  loadConfig env (heap w) = Returned cfg ->
  authorizeCanvasRequest env (routedRequest req sc) (up_resolvedAuth opts)
    (default [] (gateway_trustedProxies cfg)) (capability sc) false
    (up_rateLimiter opts)
    {| heap := heap w;
       trace := trace w ++
         [ EvNormalizeCanvasScopedUrl (default "/" (req_url req));
           EvUrlPathname (default "/" (req_url (routedRequest req sc)));
           EvLoadConfig ] |}
  = (Returned verdict, w') ->
  ok verdict = false ->
  upgradeListener env opts req w
  = (writeUpgradeAuthFailure verdict ;; socket_destroy) w'.
Proof.
  intros Hnorm Hmal Hhost Hpath Hcfg Hauth Hdenied.
  unfold upgradeListener, catchPromise, tryCatch.
  assert (Hbody : runBody (upgradeListener_body env opts req) w
                  = (writeUpgradeAuthFailure verdict ;; socket_destroy) w').
  { unfold upgradeListener_body.
    rewrite runBody_bind.
    erewrite bind_returned by (rewrite callOutcome_run, Hnorm; reflexivity).
    rewrite Hmal, routedRequest_eq, Hhost.
    remember (authorizeCanvasRequest env (routedRequest req sc)
                (up_resolvedAuth opts)) as resolver eqn:Hresolver.
    unfold runBody, seqStmt, returnIfHandled, bind, callOutcome, call, emit,
      liftOutcome, liftHeap, continue, return_, ret.
    simpl. rewrite Hpath. simpl. rewrite String.eqb_refl. simpl. rewrite Hcfg.
    simpl. flatten_trace. rewrite Hauth, Hdenied. simpl.
    unfold writeUpgradeAuthFailure, socket_write, socket_destroy, bind, emit,
      modifyHeap.
    destruct (rateLimited verdict); reflexivity. }
  rewrite Hbody. unfold writeUpgradeAuthFailure.
  destruct (rateLimited verdict); reflexivity.
Qed.

End UpgradeGateFacts.

(** C9 (fails on the code).  For the rate-limited verdict with
    retryAfterMs = 1500, [writeUpgradeAuthFailure] writes a status line and
    three header lines, Retry-After being 2, followed directly by the JSON
    text: [filter(Boolean)] has dropped the empty separator line, so the
    message has no body.  The bare 401 response is properly terminated. *)
Theorem rate_limited_upgrade_failure_has_no_body :
  let auth := {| ok := false; method := None; reason := Some "rate_limited";
                 rateLimited := true; retryAfterMs := Some 1500 |} in
  written (socket (heap (snd (writeUpgradeAuthFailure auth (Demo.world 0 [])))))
  = [ "HTTP/1.1 429 Too Many Requests" ++ Js.CRLF
      ++ "Retry-After: 2" ++ Js.CRLF
      ++ "Content-Type: application/json; charset=utf-8" ++ Js.CRLF
      ++ "Connection: close" ++ Js.CRLF
      ++ rateLimitedBody ]
  /\ httpBody (rateLimitedChunk auth) = None
  /\ httpBody unauthorizedChunk = Some EmptyString.
Proof. vm_compute. repeat split. Qed.

(** * The properties at work on a concrete deployment *)

Module Examples.

Import Demo.

(** The spec's timeline: TTL 5000 ms, token granted at 0; presented at
    4000 it is accepted and the expiry moves to 9000. *)
Example capability_accepted_at_4000 :
  hasAuthorizedNodeWsClientForCanvasCapability env "T"
    (world 4000 [uiSession; nodeSession "T" 5000])
  = (Returned true,
     {| heap := heap (world 4000 [uiSession; nodeSession "T" 9000]);
        trace := [EvDateNow] |}).
Proof. reflexivity. Qed.

(** Presented at 6001 with no renewal in between, it is refused. *)
Example capability_refused_at_6001 :
  hasAuthorizedNodeWsClientForCanvasCapability env "T"
    (world 6001 [uiSession; nodeSession "T" 5000])
  = (Returned false,
     {| heap := heap (world 6001 [uiSession; nodeSession "T" 5000]);
        trace := [EvDateNow] |}).
Proof. reflexivity. Qed.

(** [POST /healthz] is answered 405 with [Allow: GET]. *)
Example post_healthz_is_405 :
  let r := res (heap (snd (handleRequest env opts (request "POST" "/healthz")
                             (world 0 [])))) in
  statusCode r = 405 /\ In ("Allow", "GET") (headers r)
  /\ body r = Some "Method Not Allowed".
Proof. vm_compute. intuition. Qed.

(** [GET /healthz] is answered 200 with the health payload and no
    handler is called. *)
Example get_healthz_is_200 :
  handleRequest env opts (request "GET" "/healthz") (world 0 [])
  = (Returned tt,
     {| heap := setRes (heap (world 0 []))
          {| statusCode := 200;
             headers := [ ("X-Content-Type-Options", "nosniff");
                          ("Content-Type", "application/json; charset=utf-8") ];
             body := Some gatewayHealthPayload |};
        trace := [ EvSetDefaultSecurityHeaders; EvLoadConfig;
                   EvNormalizeCanvasScopedUrl "/healthz";
                   EvUrlPathname "/healthz" ] |}).
Proof. reflexivity. Qed.

(** With every stage switched on and every handler declining, the
    handlers are called in the fixed order and the answer is 404. *)
Example every_handler_declines :
  handleRequest (fullEnv false) fullOpts (request "GET" "/nothing")
    (world 0 [])
  = (Returned tt,
     {| heap := setRes (heap (world 0 []))
          {| statusCode := 404;
             headers := [ ("X-Content-Type-Options", "nosniff");
                          ("Content-Type", "text/plain; charset=utf-8") ];
             body := Some "Not Found" |};
        trace := [ EvSetDefaultSecurityHeaders; EvLoadConfig;
                   EvNormalizeCanvasScopedUrl "/nothing"; EvUrlPathname "/nothing";
                   EvHandleHooksRequest; EvHandleToolsInvokeHttpRequest;
                   EvHandleSlackHttpRequest; EvHandlePluginRequest;
                   EvHandleOpenResponsesHttpRequest; EvHandleOpenAiHttpRequest;
                   EvHandleA2uiHttpRequest; EvCanvasHostHandleHttpRequest;
                   EvHandleControlUiAvatarRequest;
                   EvHandleControlUiHttpRequest ] |}).
Proof. reflexivity. Qed.

(** When the Slack relay claims the request, nothing after it is called. *)
Example slack_claims_the_request :
  trace (snd (handleRequest (fullEnv true) fullOpts
                (request "POST" "/slack/events") (world 0 [])))
  = [ EvSetDefaultSecurityHeaders; EvLoadConfig;
      EvNormalizeCanvasScopedUrl "/slack/events"; EvUrlPathname "/slack/events";
      EvHandleHooksRequest; EvHandleToolsInvokeHttpRequest;
      EvHandleSlackHttpRequest ].
Proof. reflexivity. Qed.

(** A channel plugin route without credentials is stopped by the gateway
    re-authorization before the plugin handler. *)
Example channel_route_is_reauthorized :
  let out := handleRequest (fullEnv false) fullOpts
               (request "POST" "/api/channels/qq/webhook") (world 0 []) in
  statusCode (res (heap (snd out))) = 401
  /\ trace (snd out)
     = [ EvSetDefaultSecurityHeaders; EvLoadConfig;
         EvNormalizeCanvasScopedUrl "/api/channels/qq/webhook";
         EvUrlPathname "/api/channels/qq/webhook";
         EvHandleHooksRequest; EvHandleToolsInvokeHttpRequest;
         EvHandleSlackHttpRequest; EvGetBearerToken;
         EvAuthorizeGatewayConnect tokenAuth None [] (Some 0%nat);
         EvSendGatewayAuthFailure authUnauthorized ].
Proof. split; reflexivity. Qed.

(** A canvas path from a remote caller without credentials is stopped by
    the auth resolver before the canvas host. *)
Example canvas_path_is_gated :
  let out := handleRequest (fullEnv false) fullOpts
               (request "GET" "/__openclaw__/canvas/index.html") (world 0 []) in
  statusCode (res (heap (snd out))) = 401
  /\ last (trace (snd out)) = Some (EvSendGatewayAuthFailure authUnauthorized)
  /\ ~ In EvCanvasHostHandleHttpRequest (trace (snd out)).
Proof.
  vm_compute. split; [reflexivity|]. split; [reflexivity|].
  intros H. repeat (destruct H as [H|H]; [discriminate|]). exact H.
Qed.

End Examples.

Module Witnesses.

Import Demo.

Lemma eqb_sound (a b : string) : safeEqualSecret env a b = true -> a = b.
Proof. intros H. apply String.eqb_eq. exact H. Defined.

(** After the node session that held T is gone, T is refused at 4000,
    well inside the original TTL window. *)
Lemma capability_denied_without_holder_witness :
  hasAuthorizedNodeWsClientForCanvasCapability env "T" (world 4000 [uiSession])
  = (Returned false,
     {| heap := heap (world 4000 [uiSession]); trace := [EvDateNow] |}).
Proof.
  apply (capability_denied_without_holder env "T" (world 4000 [uiSession])).
  - exact eqb_sound.
  - simpl. constructor; [discriminate | constructor].
Defined.

(** A malformed scoped URL: 401 on the HTTP path, 401 and a destroyed
    socket on the upgrade path, a denial from the resolver. *)
Lemma malformed_scoped_path_fails_closed_witness :
  handleRequest env opts malformedRequest (world 0 [])
  = (Returned tt,
     {| heap := setRes (heap (world 0 []))
          {| statusCode := 401;
             headers := [("X-Content-Type-Options", "nosniff")];
             body := Some "unauthorized" |};
        trace := [ EvSetDefaultSecurityHeaders; EvLoadConfig;
                   EvNormalizeCanvasScopedUrl
                     "/__openclaw__/cap/%zz/__openclaw__/canvas/";
                   EvSendGatewayAuthFailure authUnauthorized ] |})
  /\ upgradeListener env upgradeOpts malformedRequest (world 0 [])
     = (Returned tt,
        {| heap := setSocket (heap (world 0 []))
             {| written := [unauthorizedChunk]; destroyed := true |};
           trace := [ EvNormalizeCanvasScopedUrl
                        "/__openclaw__/cap/%zz/__openclaw__/canvas/";
                      EvSocketWrite unauthorizedChunk; EvSocketDestroy ] |})
  /\ authorizeCanvasRequest env malformedRequest tokenAuth [] (Some "T") true None
       (world 0 [nodeSession "T" 5000])
     = (Returned authUnauthorized, world 0 [nodeSession "T" 5000]).
Proof.
  destruct (malformed_scoped_path_fails_closed env malformedRequest
              {| rewrittenUrl := None; capability := None;
                 malformedScopedPath := true |} eq_refl eq_refl)
    as (Hhttp & Hupgrade & Hresolver).
  split; [|split].
  - exact (Hhttp opts (world 0 []) {| gateway_trustedProxies := None |}
             eq_refl eq_refl).
  - exact (Hupgrade upgradeOpts (world 0 [])).
  - exact (Hresolver tokenAuth [] (Some "T") None (world 0 [nodeSession "T" 5000])).
Defined.

(** A local-direct request carrying a wrong bearer token is authorized
    with a single call; the failure counter and the sessions stay as they
    were. *)
Lemma local_direct_request_authorized_immediately_witness :
  authorizeCanvasRequest env localRequest tokenAuth [] (Some "T") false None
    (world 0 [nodeSession "T" 5000])
  = (Returned authOk,
     {| heap := heap (world 0 [nodeSession "T" 5000]);
        trace := [EvIsLocalDirectRequest []] |}).
Proof.
  apply (local_direct_request_authorized_immediately env localRequest tokenAuth
           [] (Some "T") None (world 0 [nodeSession "T" 5000])).
  reflexivity.
Defined.

(** A blocked caller presenting a bearer token and a capability token that
    no session holds gets the rate-limited verdict of the bearer check, not
    the bare unauthorized one. *)
Lemma resolver_tries_bearer_then_capability_witness :
  authorizeCanvasRequest env (remoteRequest (Some "wrong")) tokenAuth []
    (Some "T") false None (blockedWorld [nodeSession "other" 5000])
  = (Returned rateLimitedVerdict,
     {| heap := heap (blockedWorld [nodeSession "other" 5000]);
        trace := [ EvIsLocalDirectRequest []; EvGetBearerToken;
                   bearerCall tokenAuth "wrong" [] None; EvDateNow ] |}).
Proof.
  destruct (resolver_tries_bearer_then_capability env
              (remoteRequest (Some "wrong")) tokenAuth [] (Some "T") None
              (blockedWorld [nodeSession "other" 5000]) eq_refl)
    as [Hbearer _].
  destruct (Hbearer "wrong" rateLimitedVerdict
              (heap (blockedWorld [nodeSession "other" 5000]))
              eq_refl ltac:(discriminate) eq_refl)
    as (_ & _ & Hdenied).
  apply Hdenied; [reflexivity|].
  intros [_ Hex]. inversion Hex as [c l Hg | c l Hl]; subst.
  - destruct Hg as [_ (stored & e & (Hc & _) & _ & Heq)].
    simpl in Hc. inversion Hc; subst stored. simpl in Heq. discriminate.
  - inversion Hl.
Defined.

(** A session granted at 0 and matched at 4000: the expiry goes from 5000
    to 9000 and the other session is untouched. *)
Lemma renewal_extends_expiry_within_ttl_witness :
  exists (i : nat) (matched renewedSession : GatewayWsClient) (e : Z),
    [uiSession; nodeSession "T" 5000] !! i = Some matched
    /\ sessionGrants env 4000 "T" matched
    /\ canvasCapabilityExpiresAtMs matched = Some e
    /\ [uiSession; nodeSession "T" 9000] !! i = Some renewedSession
    /\ canvasCapabilityExpiresAtMs renewedSession = Some (4000 + 5000)
    /\ connect_role renewedSession = connect_role matched
    /\ connect_client_mode renewedSession = connect_client_mode matched
    /\ canvasCapability renewedSession = canvasCapability matched
    /\ (forall j : nat, j <> i ->
          [uiSession; nodeSession "T" 9000] !! j
          = [uiSession; nodeSession "T" 5000] !! j)
    /\ length [uiSession; nodeSession "T" 9000]
       = length [uiSession; nodeSession "T" 5000]
    /\ (forall (j : nat) before after e0 e1,
          [uiSession; nodeSession "T" 5000] !! j = Some before ->
          [uiSession; nodeSession "T" 9000] !! j = Some after ->
          canvasCapabilityExpiresAtMs before = Some e0 ->
          canvasCapabilityExpiresAtMs after = Some e1 ->
          e0 <= 4000 + 5000 ->
          e0 <= e1).
Proof.
  exact (renewal_extends_expiry_within_ttl env "T"
           (world 4000 [uiSession; nodeSession "T" 5000])
           {| heap := heap (world 4000 [uiSession; nodeSession "T" 9000]);
              trace := [EvDateNow] |}
           eq_refl).
Defined.

(** C6 as stated fails: with TTL 5000, a session whose expiry is 9000 is
    matched at time 0 and its expiry drops to 5000. *)
Lemma renewal_can_shorten_expiry : ~ RenewalNeverShortens env.
Proof.
  intros H.
  specialize (H "T" (world 0 [nodeSession "T" 9000])
                {| heap := heap (world 0 [nodeSession "T" 5000]);
                   trace := [EvDateNow] |}
                eq_refl 0%nat (nodeSession "T" 9000) (nodeSession "T" 5000)
                9000 5000 eq_refl eq_refl eq_refl eq_refl).
  lia.
Qed.


(** A hooks handler that throws a message quoting the gateway token
    before sending anything: the caller gets the fixed 500, with the
    header the handler had set. *)
Lemma dispatch_failure_before_send_becomes_500_witness :
  handleRequestOnNode env throwingOpts (request "GET" "/hooks/x") (world 0 [])
  = (Returned tt,
     {| heap := setRes (heap (world 0 []))
          {| statusCode := 500;
             headers := [ ("X-Content-Type-Options", "nosniff");
                          ("X-Hook", "started");
                          ("Content-Type", "text/plain; charset=utf-8") ];
             body := Some "Internal Server Error" |};
        trace := [ EvSetDefaultSecurityHeaders; EvLoadConfig;
                   EvNormalizeCanvasScopedUrl "/hooks/x";
                   EvUrlPathname "/hooks/x"; EvHandleHooksRequest ] |}).
Proof.
  destruct (dispatch_failure_before_send_becomes_500 env throwingOpts
              (request "GET" "/hooks/x") (world 0 [])
              {| heap := setRes (heap (world 0 []))
                   (setHeader (setDefaultSecurityHeaders env freshRes)
                      "X-Hook" "started");
                 trace := [ EvSetDefaultSecurityHeaders; EvLoadConfig;
                            EvNormalizeCanvasScopedUrl "/hooks/x";
                            EvUrlPathname "/hooks/x"; EvHandleHooksRequest ] |}
              "ECONNRESET while using token test-token"
              eq_refl eq_refl) as [Hfresh _].
  exact (proj1 (Hfresh eq_refl)).
Defined.

(** C8 as stated fails: a hooks handler that ends the response with
    "partial output" and then throws.  The response stands as sent
    (status 200), and the [catch] block itself throws. *)
Lemma sent_response_is_not_replaced_by_500 : ~ EveryDispatchFailureGets500 env.
Proof.
  intros H.
  destruct (H crashingOpts (request "GET" "/hooks/x") (world 0 [])
              {| heap := setRes (heap (world 0 []))
                   (endWith (setDefaultSecurityHeaders env freshRes)
                      "partial output");
                 trace := [ EvSetDefaultSecurityHeaders; EvLoadConfig;
                            EvNormalizeCanvasScopedUrl "/hooks/x";
                            EvUrlPathname "/hooks/x"; EvHandleHooksRequest ] |}
              "ECONNRESET while using token test-token"
              eq_refl eq_refl) as (w'' & Hrun & _).
  vm_compute in Hrun. discriminate.
Qed.

End Witnesses.

(** * Further properties of [server-http.ts] *)

(** ** The session set under the capability check *)

Section RegistryInvariants.

Context {Ext : Type} (env : Collaborators Ext).

Lemma renewed_same_identity now (client : GatewayWsClient) :
  connect_role (renewed env now client) = connect_role client
  /\ connect_client_mode (renewed env now client) = connect_client_mode client
  /\ canvasCapability (renewed env now client) = canvasCapability client
  /\ isNodeWsClient env (renewed env now client) = isNodeWsClient env client.
Proof. repeat split. Qed.

(** The session set after the loop, position by position. *)
Lemma forEachClient_pointwise now presented (cs : list GatewayWsClient) :
  length (snd (forEachClient env now presented cs)) = length cs
  /\ forall (i : nat) c',
       snd (forEachClient env now presented cs) !! i = Some c' ->
       exists c, cs !! i = Some c
         /\ (c' = c
             \/ (sessionGrants env now presented c
                 /\ c' = renewed env now c)).
Proof.
  destruct (forEachClient_spec env now presented cs)
    as [[Heq _] | (i0 & client & Hi0 & Hg & _ & Heq)]; rewrite Heq; simpl.
  - split; [reflexivity|]. intros i c' Hc'. exists c'. auto.
  - split; [apply length_insert|].
    intros i c' Hc'. destruct (decide (i0 = i)) as [->|Hne].
    + rewrite list_lookup_insert_eq in Hc'
        by (eapply lookup_lt_Some; exact Hi0).
      inversion Hc'; subst c'. exists client. auto.
    + rewrite list_lookup_insert_ne in Hc' by exact Hne.
      exists c'. auto.
Qed.

(** X1.  Whatever it answers, the capability check returns normally,
    keeps the number and order of sessions, leaves every session's role,
    client mode and token as they were, and leaves the rest of the heap
    alone; a session whose record differs afterwards is one that granted
    the presented token, and its new expiry is now + TTL. *)
Theorem check_changes_only_a_granting_expiry
    (presented : string) (w : World Ext) :
  let out := hasAuthorizedNodeWsClientForCanvasCapability env presented w in
  let now := nowMs (heap w) in
  (exists b : bool, fst out = Returned b)
  /\ length (clients (heap (snd out))) = length (clients (heap w))
  /\ ext (heap (snd out)) = ext (heap w)
  /\ nowMs (heap (snd out)) = nowMs (heap w)
  /\ res (heap (snd out)) = res (heap w)
  /\ socket (heap (snd out)) = socket (heap w)
  /\ forall (i : nat) c',
       clients (heap (snd out)) !! i = Some c' ->
       exists c, clients (heap w) !! i = Some c
         /\ connect_role c' = connect_role c
         /\ connect_client_mode c' = connect_client_mode c
         /\ canvasCapability c' = canvasCapability c
         /\ (c' = c
             \/ (sessionGrants env now presented c
                 /\ canvasCapabilityExpiresAtMs c'
                    = Some (now + CANVAS_CAPABILITY_TTL_MS env))).
Proof.
  intros out now. subst out. rewrite hasAuthorized_run. simpl.
  destruct (forEachClient_pointwise now presented (clients (heap w)))
    as [Hlen Hpt].
  split; [eexists; reflexivity|].
  split; [exact Hlen|].
  repeat (split; [reflexivity|]).
  intros i c' Hc'. destruct (Hpt i c' Hc') as (c & Hc & Hcase).
  exists c. split; [exact Hc|].
  destruct Hcase as [->|[Hg ->]].
  - repeat split; auto.
  - repeat split; auto.
Qed.

(** X2.  A token that was accepted at time t is accepted again at any
    later (or earlier) non-negative clock reading below t + TTL, as long
    as the session set is the one the first check left: each use keeps the
    token alive for another TTL. *)
Theorem token_used_within_ttl_stays_valid
    (presented : string) (w w1 w2 : World Ext)
    (Hfirst : hasAuthorizedNodeWsClientForCanvasCapability env presented w
              = (Returned true, w1))
    (Hsame : clients (heap w2) = clients (heap w1))
    (Hclock : 0 <= nowMs (heap w2))
    (Hsoon : nowMs (heap w2) < nowMs (heap w) + CANVAS_CAPABILITY_TTL_MS env) :
  exists w3,
    hasAuthorizedNodeWsClientForCanvasCapability env presented w2
    = (Returned true, w3).
Proof.
  rewrite hasAuthorized_run in Hfirst. inversion Hfirst as [[Hb Hw1]].
  clear Hfirst. subst w1. simpl in Hsame.
  destruct (forEachClient_spec env (nowMs (heap w)) presented (clients (heap w)))
    as [[Heq _] | (i & client & Hi & Hg & _ & Heq)];
    rewrite Heq in *; simpl in *; [discriminate|].
  rewrite hasAuthorized_run. eexists.
  replace (fst (forEachClient env (nowMs (heap w2)) presented (clients (heap w2))))
    with true; [reflexivity|].
  symmetry. apply forEachClient_true_iff. rewrite Hsame.
  apply Exists_exists. exists (renewed env (nowMs (heap w)) client).
  split.
  - eapply list_elem_of_lookup_2.
    apply list_lookup_insert_eq. eapply lookup_lt_Some. exact Hi.
  - destruct Hg as [Hn (stored & e & (Hc & Hs & _ & _) & _ & Heqs)].
    split; [exact Hn|].
    exists stored, (nowMs (heap w) + CANVAS_CAPABILITY_TTL_MS env).
    split; [|split; [lia | exact Heqs]].
    repeat split; auto. lia.
Qed.

(** X3.  If every stored expiry is at most now + TTL when the check
    runs, the same holds afterwards, no session's expiry has decreased,
    and the bound survives the clock moving forward. *)
Theorem check_keeps_expiries_within_ttl
    (presented : string) (w : World Ext)
    (Hinv : expiriesWithin
              (nowMs (heap w) + CANVAS_CAPABILITY_TTL_MS env) (clients (heap w))) :
  let w' := snd (hasAuthorizedNodeWsClientForCanvasCapability env presented w) in
  expiriesWithin (nowMs (heap w) + CANVAS_CAPABILITY_TTL_MS env) (clients (heap w'))
  /\ (forall (i : nat) c c' e e',
        clients (heap w) !! i = Some c -> clients (heap w') !! i = Some c' ->
        canvasCapabilityExpiresAtMs c = Some e ->
        canvasCapabilityExpiresAtMs c' = Some e' ->
        e <= e')
  /\ (forall later, nowMs (heap w) <= later ->
        expiriesWithin (later + CANVAS_CAPABILITY_TTL_MS env) (clients (heap w'))).
Proof.
  intros w'. subst w'. rewrite hasAuthorized_run. simpl.
  destruct (forEachClient_pointwise (nowMs (heap w)) presented (clients (heap w)))
    as [_ Hpt].
  unfold expiriesWithin in *. rewrite Forall_forall in Hinv.
  assert (Hafter : forall c', c' ∈ snd (forEachClient env (nowMs (heap w)) presented
                                         (clients (heap w))) ->
            forall e, canvasCapabilityExpiresAtMs c' = Some e ->
                      e <= nowMs (heap w) + CANVAS_CAPABILITY_TTL_MS env).
  { intros c' Hin e He. apply list_elem_of_lookup_1 in Hin as [i Hi].
    destruct (Hpt i c' Hi) as (c & Hc & [->|[_ ->]]).
    - apply (Hinv c); [eapply list_elem_of_lookup_2; exact Hc | exact He].
    - simpl in He. inversion He. lia. }
  split; [|split].
  - apply Forall_forall. exact Hafter.
  - intros i c c' e e' Hc Hc' He He'.
    destruct (Hpt i c' Hc') as (c0 & Hc0 & Hcase).
    rewrite Hc in Hc0. inversion Hc0; subst c0.
    destruct Hcase as [->|[_ ->]].
    + rewrite He in He'. inversion He'. lia.
    + simpl in He'. inversion He'; subst e'.
      apply (Hinv c); [eapply list_elem_of_lookup_2; exact Hc | exact He].
  - intros later Hlater. apply Forall_forall. intros c' Hin e He.
    specialize (Hafter c' Hin e He). lia.
Qed.

End RegistryInvariants.

(** ** The HTTP listener at its edges *)

Section HttpEdges.

Context {Ext : Type} (env : Collaborators Ext).

Lemma strictEq_Some_iff (a : option string) (s : string) :
  Js.strictEq a (Some s) = true <-> a = Some s.
Proof.
  destruct a as [x|]; simpl; [|split; discriminate].
  rewrite String.eqb_eq. split; [intros ->; reflexivity | intros H; now inversion H].
Qed.

Lemma routedRequest_method req sc :
  req_method (routedRequest req sc) = req_method req.
Proof.
  unfold routedRequest. destruct (rewrittenUrl sc) as [u|]; [|reflexivity].
  destruct (String.eqb u EmptyString); reflexivity.
Qed.

(** X4.  A request whose path is /healthz or /health is answered by the
    gateway itself before any handler and without any authorization: GET
    gets 200 with the JSON health payload, every other method gets 405
    with [Allow: GET].  The only calls made are the header setter, the
    config read, the normalizer and the URL parser. *)
Theorem health_check_answers_before_any_handler
    (opts : HttpServerOpts Ext) (req : IncomingMessage) (w : World Ext)
    (cfg : OpenClawConfig) (sc : NormalizedCanvasScopedUrl) (path : string)
    (Hup : isWebSocketUpgrade req = false)
    (Hcfg : loadConfig env
              (setRes (heap w) (setDefaultSecurityHeaders env (res (heap w))))
            = Returned cfg)
    (Hnorm : normalizeCanvasScopedUrl env (default "/" (req_url req)) = Returned sc)
    (Hmal : malformedScopedPath sc = false)
    (Hpath : urlPathname env (default "/" (req_url (routedRequest req sc)))
             = Returned path)
    (Hhealth : isGatewayHealthPath path = true) :
  let r0 := setDefaultSecurityHeaders env (res (heap w)) in
  let answer :=
    if Js.strictEq (req_method req) (Some "GET")
    then endWith (setHeader (setStatusCode r0 200)
                    "Content-Type" "application/json; charset=utf-8")
           gatewayHealthPayload
    else methodNotAllowed r0 in
  handleRequest env opts req w
  = (Returned tt,
     {| heap := setRes (heap w) answer;
        trace := (trace w ++
          [ EvSetDefaultSecurityHeaders; EvLoadConfig;
            EvNormalizeCanvasScopedUrl (default "/" (req_url req));
            EvUrlPathname (default "/" (req_url (routedRequest req sc))) ])%list |})
  /\ (req_method req = Some "GET" ->
      statusCode answer = 200 /\ body answer = Some gatewayHealthPayload
      /\ In ("Content-Type", "application/json; charset=utf-8") (headers answer))
  /\ (req_method req <> Some "GET" ->
      statusCode answer = 405 /\ body answer = Some "Method Not Allowed"
      /\ In ("Allow", "GET") (headers answer)).
Proof.
  intros r0 answer. split; [|split].
  - rewrite handleRequest_unfold, Hup. cbv zeta. unfold tryCatch.
    erewrite handleRequest_try_routes by eassumption.
    simpl map. cbn [runChain]. unfold bind at 1.
    rewrite Hhealth, routedRequest_method.
    subst answer r0.
    destruct (Js.strictEq (req_method req) (Some "GET"));
      unfold_monad; simpl; flatten_trace; reflexivity.
  - intros Hget. subst answer. rewrite (proj2 (strictEq_Some_iff _ _) Hget).
    simpl. repeat split. apply in_or_app. right. left. reflexivity.
  - intros Hother. subst answer.
    destruct (Js.strictEq (req_method req) (Some "GET")) eqn:Heq.
    { apply strictEq_Some_iff in Heq. contradiction. }
    simpl. repeat split. apply in_or_app. left.
    apply filter_In. split; [|reflexivity].
    apply in_or_app. right. left. reflexivity.
Qed.

(** X6.  A URL the normalizer cannot parse at all (it throws): on the HTTP
    path, once the config is read, the request gets the fixed 500 and no
    handler is called; on the upgrade path the socket is destroyed
    without a byte written and no upgrade handler is called. *)
Theorem unparseable_url_is_refused
    (req : IncomingMessage) (e : Exn)
    (Hnorm : normalizeCanvasScopedUrl env (default "/" (req_url req)) = Thrown e) :
  (forall (opts : HttpServerOpts Ext) (w : World Ext) (cfg : OpenClawConfig),
      isWebSocketUpgrade req = false ->
      loadConfig env
        (setRes (heap w) (setDefaultSecurityHeaders env (res (heap w))))
      = Returned cfg ->
      handleRequest env opts req w
      = (Returned tt,
         {| heap := setRes (heap w)
                      (internalServerError
                         (setDefaultSecurityHeaders env (res (heap w))));
            trace := (trace w ++
              [ EvSetDefaultSecurityHeaders; EvLoadConfig;
                EvNormalizeCanvasScopedUrl (default "/" (req_url req)) ])%list |}))
  /\ (forall (opts : UpgradeOpts Ext) (w : World Ext),
        upgradeListener env opts req w
        = (Returned tt,
           {| heap := setSocket (heap w)
                        {| written := written (socket (heap w));
                           destroyed := true |};
              trace := (trace w ++
                [ EvNormalizeCanvasScopedUrl (default "/" (req_url req));
                  EvSocketDestroy ])%list |})).
Proof.
  split.
  - intros opts w cfg Hup Hcfg.
    rewrite handleRequest_unfold, Hup. cbv zeta.
    erewrite tryCatch_thrown.
    2:{ unfold handleRequest_try. rewrite runBody_bind.
        erewrite bind_returned
          by (rewrite call_run; simpl; rewrite Hcfg; reflexivity).
        rewrite runBody_bind.
        erewrite bind_thrown by (rewrite callOutcome_run, Hnorm; reflexivity).
        reflexivity. }
    unfold modifyRes, modifyHeap. simpl. flatten_trace. reflexivity.
  - intros opts w. unfold upgradeListener, catchPromise.
    erewrite tryCatch_thrown.
    2:{ unfold upgradeListener_body. rewrite runBody_bind.
        erewrite bind_thrown by (rewrite callOutcome_run, Hnorm; reflexivity).
        reflexivity. }
    unfold socket_destroy, bind, emit, modifyHeap. simpl. flatten_trace.
    reflexivity.
Qed.

Lemma toLowerCase_idempotent (s : string) :
  Js.toLowerCase (Js.toLowerCase s) = Js.toLowerCase s.
Proof.
  induction s as [|c s IH]; [reflexivity|]. simpl. rewrite IH. f_equal.
  unfold Js.lowerAscii.
  destruct (Nat.leb 65 (nat_of_ascii c) && Nat.leb (nat_of_ascii c) 90)%bool eqn:Hc;
    [|now rewrite Hc].
  apply andb_prop in Hc as [H1 H2].
  apply Nat.leb_le in H1. apply Nat.leb_le in H2.
  rewrite nat_ascii_embedding by lia.
  replace (Nat.leb (nat_of_ascii c + 32) 90) with false
    by (symmetry; apply Nat.leb_gt; lia).
  now rewrite andb_false_r.
Qed.

(** X7.  A request carrying an [Upgrade] header that spells "websocket"
    in any letter case is left to the upgrade listener: [handleRequest]
    sets the security headers and does nothing else, neither reading the
    config nor writing a status or body, and the same holds for the
    header value in lower case. *)
Theorem websocket_upgrade_is_left_alone
    (opts : HttpServerOpts Ext) (req : IncomingMessage) (w : World Ext)
    (u : string)
    (Hheader : req_headers_upgrade req = Some u)
    (Hspells : Js.toLowerCase u = "websocket") :
  handleRequest env opts req w
  = (Returned tt,
     {| heap := setRes (heap w) (setDefaultSecurityHeaders env (res (heap w)));
        trace := (trace w ++ [EvSetDefaultSecurityHeaders])%list |})
  /\ isWebSocketUpgrade
       {| req_method := req_method req; req_url := req_url req;
          req_headers_upgrade := Some (Js.toLowerCase u);
          req_headers_authorization := req_headers_authorization req;
          req_remoteAddress := req_remoteAddress req |} = true.
Proof.
  split.
  - rewrite handleRequest_unfold. cbv zeta.
    unfold isWebSocketUpgrade. rewrite Hheader. simpl default.
    rewrite Hspells. reflexivity.
  - unfold isWebSocketUpgrade. simpl.
    rewrite toLowerCase_idempotent, Hspells. reflexivity.
Qed.

End HttpEdges.

(** ** The upgrade listener *)

Section UpgradeGateProperties.

Context {Ext : Type} (env : Collaborators Ext).

(** X8.  Without a canvas host the upgrade listener makes no
    authorization check of its own, whatever the path (the canvas
    WebSocket path included): a request the normalizer accepts goes
    straight to the WebSocket server, and the socket is destroyed only if
    that call throws. *)
Theorem upgrade_without_canvas_host_goes_to_wss
    (opts : UpgradeOpts Ext) (req : IncomingMessage) (w : World Ext)
    (sc : NormalizedCanvasScopedUrl)
    (Hnorm : normalizeCanvasScopedUrl env (default "/" (req_url req)) = Returned sc)
    (Hmal : malformedScopedPath sc = false)
    (Hhost : up_canvasHost opts = None) :
  upgradeListener env opts req w
  = match up_wss_handleUpgrade opts (routedRequest req sc) (heap w) with
    | (Returned _, h') =>
      (Returned tt,
       {| heap := h';
          trace := (trace w ++
            [ EvNormalizeCanvasScopedUrl (default "/" (req_url req));
              EvWssHandleUpgrade ])%list |})
    | (Thrown _, h') =>
      (Returned tt,
       {| heap := setSocket h'
                    {| written := written (socket h'); destroyed := true |};
          trace := (trace w ++
            [ EvNormalizeCanvasScopedUrl (default "/" (req_url req));
              EvWssHandleUpgrade; EvSocketDestroy ])%list |})
    end.
Proof.
  unfold upgradeListener, catchPromise, upgradeListener_body, tryCatch.
  rewrite runBody_bind.
  erewrite bind_returned by (rewrite callOutcome_run, Hnorm; reflexivity).
  rewrite Hmal, routedRequest_eq, Hhost.
  unfold_monad. simpl.
  destruct (up_wss_handleUpgrade opts (routedRequest req sc) (heap w))
    as [[[]|e] h']; simpl; flatten_trace; reflexivity.
Qed.

(** X9.  With a canvas host, an upgrade for any path other than the
    canvas WebSocket path is not checked by the auth resolver: neither
    the config nor the session set is read, and the request is handed to
    the canvas host and, if that declines, to the WebSocket server. *)
Theorem upgrade_off_canvas_path_is_not_gated
    (opts : UpgradeOpts Ext) (host : CanvasHostHandler Ext)
    (req : IncomingMessage) (w : World Ext)
    (sc : NormalizedCanvasScopedUrl) (pathname : string)
    (Hnorm : normalizeCanvasScopedUrl env (default "/" (req_url req)) = Returned sc)
    (Hmal : malformedScopedPath sc = false)
    (Hhost : up_canvasHost opts = Some host)
    (Hpath : urlPathname env (default "/" (req_url (routedRequest req sc)))
             = Returned pathname)
    (Hother : pathname <> CANVAS_WS_PATH env) :
  upgradeListener env opts req w
  = handedOff opts host (routedRequest req sc)
      {| heap := heap w;
         trace := trace w ++
           [ EvNormalizeCanvasScopedUrl (default "/" (req_url req));
             EvUrlPathname (default "/" (req_url (routedRequest req sc))) ] |}.
Proof.
  unfold upgradeListener, catchPromise, upgradeListener_body, tryCatch.
  rewrite runBody_bind.
  erewrite bind_returned by (rewrite callOutcome_run, Hnorm; reflexivity).
  rewrite Hmal, routedRequest_eq, Hhost.
  apply String.eqb_neq in Hother.
  unfold handedOff. unfold_monad. simpl. rewrite Hpath. simpl.
  rewrite Hother. simpl.
  destruct (handleUpgrade host (routedRequest req sc) (heap w))
    as [[[]|e] h1]; simpl; flatten_trace; [reflexivity | | reflexivity].
  destruct (up_wss_handleUpgrade opts (routedRequest req sc) h1)
    as [[[]|e] h2]; simpl; flatten_trace; reflexivity.
Qed.

(** X10.  An upgrade for the canvas WebSocket path that the auth resolver
    denies: the failure response (the 429 form for a rate-limited verdict,
    the bare 401 otherwise) is the one chunk written to the socket, the
    socket is destroyed, and neither the canvas host's nor the WebSocket
    server's upgrade handler is called. *)
Theorem denied_canvas_upgrade_is_refused
    (opts : UpgradeOpts Ext) (host : CanvasHostHandler Ext)
    (req : IncomingMessage) (w w' : World Ext)
    (sc : NormalizedCanvasScopedUrl) (cfg : OpenClawConfig)
    (verdict : GatewayAuthResult)
    (Hnorm : normalizeCanvasScopedUrl env (default "/" (req_url req)) = Returned sc)
    (Hmal : malformedScopedPath sc = false)
    (Hhost : up_canvasHost opts = Some host)
    (Hpath : urlPathname env (default "/" (req_url (routedRequest req sc)))
             = Returned (CANVAS_WS_PATH env))
    (Hcfg : loadConfig env (heap w) = Returned cfg)
    (Hauth : authorizeCanvasRequest env (routedRequest req sc) (up_resolvedAuth opts)
               (default [] (gateway_trustedProxies cfg)) (capability sc) false
               (up_rateLimiter opts)
               {| heap := heap w;
                  trace := trace w ++
                    [ EvNormalizeCanvasScopedUrl (default "/" (req_url req));
                      EvUrlPathname (default "/" (req_url (routedRequest req sc)));
                      EvLoadConfig ] |}
             = (Returned verdict, w'))
    (Hdenied : ok verdict = false) :
  let chunk :=
    if rateLimited verdict then rateLimitedChunk verdict else unauthorizedChunk in
  upgradeListener env opts req w
  = (Returned tt,
     {| heap := setSocket (heap w')
                  {| written := written (socket (heap w')) ++ [chunk];
                     destroyed := true |};
        trace := (trace w' ++ [EvSocketWrite chunk; EvSocketDestroy])%list |}).
Proof.
  intros chunk. subst chunk.
  rewrite (denied_canvas_upgrade_destroys_socket env opts host req w w' sc cfg
             verdict Hnorm Hmal Hhost Hpath Hcfg Hauth Hdenied).
  unfold writeUpgradeAuthFailure.
  destruct (rateLimited verdict); unfold_monad; simpl; flatten_trace; reflexivity.
Qed.

(** X11.  An upgrade for the canvas WebSocket path that the auth resolver
    authorizes: the gate writes nothing to the socket and hands the
    request to the canvas host and, if that declines, to the WebSocket
    server, from the world the resolver left (a renewed session
    included). *)
Theorem authorized_canvas_upgrade_is_handed_on
    (opts : UpgradeOpts Ext) (host : CanvasHostHandler Ext)
    (req : IncomingMessage) (w w' : World Ext)
    (sc : NormalizedCanvasScopedUrl) (cfg : OpenClawConfig)
    (verdict : GatewayAuthResult)
    (Hnorm : normalizeCanvasScopedUrl env (default "/" (req_url req)) = Returned sc)
    (Hmal : malformedScopedPath sc = false)
    (Hhost : up_canvasHost opts = Some host)
    (Hpath : urlPathname env (default "/" (req_url (routedRequest req sc)))
             = Returned (CANVAS_WS_PATH env))
    (Hcfg : loadConfig env (heap w) = Returned cfg)
    (Hauth : authorizeCanvasRequest env (routedRequest req sc) (up_resolvedAuth opts)
               (default [] (gateway_trustedProxies cfg)) (capability sc) false
               (up_rateLimiter opts)
               {| heap := heap w;
                  trace := trace w ++
                    [ EvNormalizeCanvasScopedUrl (default "/" (req_url req));
                      EvUrlPathname (default "/" (req_url (routedRequest req sc)));
                      EvLoadConfig ] |}
             = (Returned verdict, w'))
    (Hok : ok verdict = true) :
  upgradeListener env opts req w = handedOff opts host (routedRequest req sc) w'.
Proof.
  unfold upgradeListener, catchPromise, upgradeListener_body, tryCatch.
  rewrite runBody_bind.
  erewrite bind_returned by (rewrite callOutcome_run, Hnorm; reflexivity).
  rewrite Hmal, routedRequest_eq, Hhost.
  remember (authorizeCanvasRequest env (routedRequest req sc)
              (up_resolvedAuth opts)) as resolver eqn:Hresolver.
  unfold handedOff. unfold_monad.
  simpl. rewrite Hpath. simpl. rewrite String.eqb_refl. simpl. rewrite Hcfg.
  simpl. flatten_trace. rewrite Hauth, Hok. simpl.
  destruct (handleUpgrade host (routedRequest req sc) (heap w'))
    as [[[]|e] h1]; simpl; flatten_trace; [reflexivity | | reflexivity].
  destruct (up_wss_handleUpgrade opts (routedRequest req sc) h1)
    as [[[]|e] h2]; simpl; flatten_trace; reflexivity.
Qed.

End UpgradeGateProperties.

(** ** The rate-limited failure response *)

Section RetryAfterProperties.

Lemma ceilDiv_positive (n d : Z) : 0 < d -> 0 < n -> 1 <= Js.ceilDiv n d.
Proof.
  intros Hd Hn. destruct (ceilDiv_is_ceiling n d Hd) as [Hup _]. nia.
Qed.

(** X12.  The lines of the 429 chunk, joined by CRLF: the status line, a
    [Retry-After] line exactly when [retryAfterMs] is present and positive,
    the content type, [Connection: close] and the JSON text.  The
    [Retry-After] value is the least whole number of seconds that covers
    [retryAfterMs]. *)
Theorem retry_after_line_rounds_up (auth : GatewayAuthResult) :
  let withoutDelay :=
    Js.join Js.CRLF
      [ "HTTP/1.1 429 Too Many Requests";
        "Content-Type: application/json; charset=utf-8";
        "Connection: close";
        rateLimitedBody ] in
  match retryAfterMs auth with
  | Some ms =>
    if Z.ltb 0 ms then
      let seconds := Js.ceilDiv ms 1000 in
      rateLimitedChunk auth
      = Js.join Js.CRLF
          [ "HTTP/1.1 429 Too Many Requests";
            "Retry-After: " ++ Js.numberToString seconds;
            "Content-Type: application/json; charset=utf-8";
            "Connection: close";
            rateLimitedBody ]
      /\ ms <= seconds * 1000 /\ seconds * 1000 < ms + 1000
    else rateLimitedChunk auth = withoutDelay
  | None => rateLimitedChunk auth = withoutDelay
  end.
Proof.
  intros withoutDelay. subst withoutDelay.
  pose proof (retryAfterSeconds_spec auth) as Hspec.
  unfold rateLimitedChunk.
  destruct (retryAfterMs auth) as [ms|]; [|rewrite Hspec; reflexivity].
  destruct (Z.ltb 0 ms) eqn:Hpos; [|rewrite Hspec; reflexivity].
  apply Z.ltb_lt in Hpos. rewrite Hspec.
  pose proof (ceilDiv_positive ms 1000 ltac:(lia) Hpos) as Hone.
  destruct (ceilDiv_is_ceiling ms 1000 ltac:(lia)) as [Hup Hlow].
  split; [|lia].
  assert (Htruthy : Js.truthyNumber (Some (Js.ceilDiv ms 1000)) = true).
  { apply truthyNumber_Some. lia. }
  rewrite Htruthy. reflexivity.
Qed.

End RetryAfterProperties.

(** ** The resolver when the bearer check fails to run *)

Section ResolverEdges.

Context {Ext : Type} (env : Collaborators Ext).

(** X13.  If the gateway authentication check throws (a failing rate
    limiter, say), the resolver throws the same exception and does not
    fall back on the capability registry: the clock and the session set
    are not read, even when a valid capability token was presented. *)
Theorem failing_bearer_check_is_not_a_bypass
    (req : IncomingMessage) (auth : ResolvedGatewayAuth)
    (trustedProxies : list string) (canvasCapability : option string)
    (rateLimiter : option AuthRateLimiter) (w : World Ext)
    (t : string) (e : Exn) (h' : Heap Ext)
    (Hlocal : isLocalDirectRequest env req trustedProxies = false)
    (Htoken : getBearerToken env req = Some t)
    (Hnonempty : t <> EmptyString)
    (Hthrows : authorizeGatewayConnect env (withAllowTailscale auth false)
                 (Some {| ca_token := t; ca_password := t |}) req trustedProxies
                 rateLimiter (heap w) = (Thrown e, h')) :
  authorizeCanvasRequest env req auth trustedProxies canvasCapability false
    rateLimiter w
  = (Thrown e,
     {| heap := h';
        trace := (trace w ++
          [ EvIsLocalDirectRequest trustedProxies; EvGetBearerToken;
            bearerCall auth t trustedProxies rateLimiter ])%list |}).
Proof.
  unfold authorizeCanvasRequest.
  rewrite (bind_returned _ _ _ _ _ (callPure_run _ _ _)), Hlocal.
  rewrite (bind_returned _ _ _ _ _ (callPure_run _ _ _)).
  rewrite Htoken. apply truthyString_Some in Hnonempty. rewrite Hnonempty.
  simpl default.
  erewrite bind_thrown; [reflexivity|].
  erewrite bind_thrown; [reflexivity|].
  rewrite call_run. simpl. rewrite Hthrows. simpl. flatten_trace. reflexivity.
Qed.

End ResolverEdges.

(** ** Gated routes of the router *)

Section GatedRoutes.

Context {Ext : Type} (env : Collaborators Ext).

Lemma runChain_after_declines (pre post : list (Stage (Ext := Ext)))
    (w w1 : World Ext) :
  allDecline pre w w1 -> runChain (pre ++ post) w = runChain post w1.
Proof.
  revert w. induction pre as [|s pre IH]; intros w Hd; simpl in Hd.
  - now subst w1.
  - destruct Hd as (w0 & Hs & Hrest). simpl. unfold bind. rewrite Hs.
    now apply IH.
Qed.

(** A request that reaches the router and is declined by the stages
    [pre] ends the way the remaining stages end it, provided they return
    normally. *)
Lemma handleRequest_after_declines
    (opts : HttpServerOpts Ext) (req : IncomingMessage) (w w1 w2 : World Ext)
    (cfg : OpenClawConfig) (sc : NormalizedCanvasScopedUrl) (path : string)
    (pre post : list StageName) :
  isWebSocketUpgrade req = false ->
  loadConfig env (setRes (heap w) (setDefaultSecurityHeaders env (res (heap w))))
  = Returned cfg ->
  normalizeCanvasScopedUrl env (default "/" (req_url req)) = Returned sc ->
  malformedScopedPath sc = false ->
  urlPathname env (default "/" (req_url (routedRequest req sc))) = Returned path ->
  documentedOrder = (pre ++ post)%list ->
  allDecline
    (map (stage env opts cfg (default [] (gateway_trustedProxies cfg)) sc
            (routedRequest req sc) path) pre)
    (atRouter env w (default "/" (req_url req))
       (default "/" (req_url (routedRequest req sc)))) w1 ->
  runChain
    (map (stage env opts cfg (default [] (gateway_trustedProxies cfg)) sc
            (routedRequest req sc) path) post) w1
  = (Returned tt, w2) ->
  handleRequest env opts req w = (Returned tt, w2).
Proof.
  intros Hup Hcfg Hnorm Hmal Hpath Horder Hpre Hpost.
  rewrite handleRequest_unfold, Hup. cbv zeta.
  apply tryCatch_returned.
  erewrite handleRequest_try_routes by eassumption.
  rewrite Horder, map_app. simpl heap. simpl trace. flatten_trace.
  erewrite runChain_after_declines by exact Hpre.
  exact Hpost.
Qed.

Lemma connectAuthOf_cases (token : option string) :
  connectAuthOf token
  = match token with
    | Some t =>
      if String.eqb t EmptyString then None
      else Some {| ca_token := t; ca_password := t |}
    | None => None
    end.
Proof.
  unfold connectAuthOf. destruct token as [t|]; [|reflexivity]. simpl.
  destruct (String.eqb t EmptyString); reflexivity.
Qed.

(** X14.  A plugin route under /api/channels/ is reached only through the
    gateway authentication check, made with the configured trust settings
    as they are and with the bearer token, if any, offered as token and
    password.  When the check denies, the denial is sent as the response
    and the plugin handler is not called; when it authorizes, the plugin
    handler is called next. *)
Theorem channel_plugin_route_is_reauthorized
    (opts : HttpServerOpts Ext) (req : IncomingMessage) (w w1 : World Ext)
    (cfg : OpenClawConfig) (sc : NormalizedCanvasScopedUrl) (path : string)
    (plugin : IncomingMessage -> Handler Ext)
    (verdict : GatewayAuthResult) (h2 : Heap Ext)
    (Hup : isWebSocketUpgrade req = false)
    (Hcfg : loadConfig env
              (setRes (heap w) (setDefaultSecurityHeaders env (res (heap w))))
            = Returned cfg)
    (Hnorm : normalizeCanvasScopedUrl env (default "/" (req_url req)) = Returned sc)
    (Hmal : malformedScopedPath sc = false)
    (Hpath : urlPathname env (default "/" (req_url (routedRequest req sc)))
             = Returned path)
    (Hplugin : handlePluginRequest opts = Some plugin)
    (Hchannel : Js.startsWith "/api/channels/" path = true)
    (Hbefore : allDecline
                 (map (stage env opts cfg (default [] (gateway_trustedProxies cfg))
                         sc (routedRequest req sc) path) stagesBeforePlugin)
                 (atRouter env w (default "/" (req_url req))
                    (default "/" (req_url (routedRequest req sc)))) w1)
    (Hauth : authorizeGatewayConnect env (resolvedAuth opts)
               (connectAuthOf (getBearerToken env (routedRequest req sc)))
               (routedRequest req sc) (default [] (gateway_trustedProxies cfg))
               (rateLimiter opts) (heap w1)
             = (Returned verdict, h2)) :
  let checked : list Event :=
    (trace w1 ++
       [ EvGetBearerToken;
         EvAuthorizeGatewayConnect (resolvedAuth opts)
           (connectAuthOf (getBearerToken env (routedRequest req sc)))
           (default [] (gateway_trustedProxies cfg)) (rateLimiter opts) ])%list in
  (ok verdict = false ->
   handleRequest env opts req w
   = (Returned tt,
      {| heap := setRes h2 (sendGatewayAuthFailure env (res h2) verdict);
         trace := (checked ++ [EvSendGatewayAuthFailure verdict])%list |}))
  /\ (ok verdict = true ->
      forall h3, plugin (routedRequest req sc) h2 = (Returned true, h3) ->
      handleRequest env opts req w
      = (Returned tt,
         {| heap := h3; trace := (checked ++ [EvHandlePluginRequest])%list |})).
Proof.
  intros checked. subst checked.
  split.
  - intros Hdenied.
    eapply (handleRequest_after_declines opts req w w1 _ cfg sc path
              stagesBeforePlugin
              [PluginRoutes; OpenResponsesProxy; OpenAiChatProxy; CanvasHost;
               ControlDashboard]); try eassumption; [reflexivity|].
    simpl map. cbn [runChain]. rewrite Hplugin, Hchannel.
    unfold gatedBy, channelReauthorization.
    unfold_monad. simpl. rewrite <- !connectAuthOf_cases.
    rewrite Hauth, Hdenied. simpl. flatten_trace.
    reflexivity.
  - intros Hok h3 Hhandled.
    eapply (handleRequest_after_declines opts req w w1 _ cfg sc path
              stagesBeforePlugin
              [PluginRoutes; OpenResponsesProxy; OpenAiChatProxy; CanvasHost;
               ControlDashboard]); try eassumption; [reflexivity|].
    simpl map. cbn [runChain]. rewrite Hplugin, Hchannel.
    unfold gatedBy, channelReauthorization.
    unfold_monad. simpl. rewrite <- !connectAuthOf_cases.
    rewrite Hauth, Hok. simpl. rewrite Hhandled. simpl.
    flatten_trace. reflexivity.
Qed.

(** X15.  A plugin route outside /api/channels/ is plugin-owned: once the
    earlier stages have declined, the plugin handler is called without a
    bearer token being extracted and without any gateway authentication
    check. *)
Theorem other_plugin_route_is_not_reauthorized
    (opts : HttpServerOpts Ext) (req : IncomingMessage) (w w1 : World Ext)
    (cfg : OpenClawConfig) (sc : NormalizedCanvasScopedUrl) (path : string)
    (plugin : IncomingMessage -> Handler Ext) (h2 : Heap Ext)
    (Hup : isWebSocketUpgrade req = false)
    (Hcfg : loadConfig env
              (setRes (heap w) (setDefaultSecurityHeaders env (res (heap w))))
            = Returned cfg)
    (Hnorm : normalizeCanvasScopedUrl env (default "/" (req_url req)) = Returned sc)
    (Hmal : malformedScopedPath sc = false)
    (Hpath : urlPathname env (default "/" (req_url (routedRequest req sc)))
             = Returned path)
    (Hplugin : handlePluginRequest opts = Some plugin)
    (Hchannel : Js.startsWith "/api/channels/" path = false)
    (Hbefore : allDecline
                 (map (stage env opts cfg (default [] (gateway_trustedProxies cfg))
                         sc (routedRequest req sc) path) stagesBeforePlugin)
                 (atRouter env w (default "/" (req_url req))
                    (default "/" (req_url (routedRequest req sc)))) w1)
    (Hhandled : plugin (routedRequest req sc) (heap w1) = (Returned true, h2)) :
  handleRequest env opts req w
  = (Returned tt,
     {| heap := h2; trace := (trace w1 ++ [EvHandlePluginRequest])%list |}).
Proof.
  eapply (handleRequest_after_declines opts req w w1 _ cfg sc path
            stagesBeforePlugin
            [PluginRoutes; OpenResponsesProxy; OpenAiChatProxy; CanvasHost;
             ControlDashboard]); try eassumption; [reflexivity|].
  simpl map. cbn [runChain]. rewrite Hplugin, Hchannel.
  unfold_monad. simpl. rewrite Hhandled. reflexivity.
Qed.

(** X16.  With a canvas host, a request for a canvas path passes through
    the auth resolver before the canvas handlers.  When the resolver
    denies, its verdict is sent as the response and neither canvas
    handler is called; when it authorizes, the A2UI handler is called
    next. *)
Theorem canvas_path_is_gated_by_the_resolver
    (opts : HttpServerOpts Ext) (req : IncomingMessage) (w w1 w2 : World Ext)
    (cfg : OpenClawConfig) (sc : NormalizedCanvasScopedUrl) (path : string)
    (host : CanvasHostHandler Ext) (verdict : GatewayAuthResult)
    (Hup : isWebSocketUpgrade req = false)
    (Hcfg : loadConfig env
              (setRes (heap w) (setDefaultSecurityHeaders env (res (heap w))))
            = Returned cfg)
    (Hnorm : normalizeCanvasScopedUrl env (default "/" (req_url req)) = Returned sc)
    (Hmal : malformedScopedPath sc = false)
    (Hpath : urlPathname env (default "/" (req_url (routedRequest req sc)))
             = Returned path)
    (Hhost : canvasHost opts = Some host)
    (Hcanvas : isCanvasPath env path = true)
    (Hbefore : allDecline
                 (map (stage env opts cfg (default [] (gateway_trustedProxies cfg))
                         sc (routedRequest req sc) path) stagesBeforeCanvas)
                 (atRouter env w (default "/" (req_url req))
                    (default "/" (req_url (routedRequest req sc)))) w1)
    (Hauth : authorizeCanvasRequest env (routedRequest req sc) (resolvedAuth opts)
               (default [] (gateway_trustedProxies cfg)) (capability sc) false
               (rateLimiter opts) w1
             = (Returned verdict, w2)) :
  (ok verdict = false ->
   handleRequest env opts req w
   = (Returned tt,
      {| heap := setRes (heap w2)
                   (sendGatewayAuthFailure env (res (heap w2)) verdict);
         trace := (trace w2 ++ [EvSendGatewayAuthFailure verdict])%list |}))
  /\ (ok verdict = true ->
      forall h3,
        handleA2uiHttpRequest env (routedRequest req sc) (heap w2)
        = (Returned true, h3) ->
        handleRequest env opts req w
        = (Returned tt,
           {| heap := h3; trace := (trace w2 ++ [EvHandleA2uiHttpRequest])%list |})).
Proof.
  split.
  - intros Hdenied.
    eapply (handleRequest_after_declines opts req w w1 _ cfg sc path
              stagesBeforeCanvas [CanvasHost; ControlDashboard]);
      try eassumption; [reflexivity|].
    simpl map. cbn [runChain]. rewrite Hhost, Hcanvas, Hmal.
    unfold gatedBy. unfold bind at 1 2. rewrite Hauth, Hdenied.
    unfold_monad. simpl. reflexivity.
  - intros Hok h3 Hhandled.
    eapply (handleRequest_after_declines opts req w w1 _ cfg sc path
              stagesBeforeCanvas [CanvasHost; ControlDashboard]);
      try eassumption; [reflexivity|].
    simpl map. cbn [runChain]. rewrite Hhost, Hcanvas, Hmal.
    unfold gatedBy. unfold bind at 1 2. rewrite Hauth, Hok.
    unfold orElse. unfold_monad. simpl. rewrite Hhandled. reflexivity.
Qed.

(** X17.  With a canvas host, a request for a path that is not a canvas
    path still reaches the canvas handlers once the earlier stages have
    declined, and it does so without the auth resolver: no origin test, no
    bearer extraction, no clock or session read. *)
Theorem off_canvas_path_skips_the_resolver
    (opts : HttpServerOpts Ext) (req : IncomingMessage) (w w1 : World Ext)
    (cfg : OpenClawConfig) (sc : NormalizedCanvasScopedUrl) (path : string)
    (host : CanvasHostHandler Ext) (h2 : Heap Ext)
    (Hup : isWebSocketUpgrade req = false)
    (Hcfg : loadConfig env
              (setRes (heap w) (setDefaultSecurityHeaders env (res (heap w))))
            = Returned cfg)
    (Hnorm : normalizeCanvasScopedUrl env (default "/" (req_url req)) = Returned sc)
    (Hmal : malformedScopedPath sc = false)
    (Hpath : urlPathname env (default "/" (req_url (routedRequest req sc)))
             = Returned path)
    (Hhost : canvasHost opts = Some host)
    (Hcanvas : isCanvasPath env path = false)
    (Hbefore : allDecline
                 (map (stage env opts cfg (default [] (gateway_trustedProxies cfg))
                         sc (routedRequest req sc) path) stagesBeforeCanvas)
                 (atRouter env w (default "/" (req_url req))
                    (default "/" (req_url (routedRequest req sc)))) w1)
    (Hdeclined : handleA2uiHttpRequest env (routedRequest req sc) (heap w1)
                 = (Returned false, h2)) :
  forall h3,
    handleHttpRequest host (routedRequest req sc) h2 = (Returned true, h3) ->
    handleRequest env opts req w
    = (Returned tt,
       {| heap := h3;
          trace := (trace w1 ++
            [EvHandleA2uiHttpRequest; EvCanvasHostHandleHttpRequest])%list |}).
Proof.
  intros h3 Hhandled.
  eapply (handleRequest_after_declines opts req w w1 _ cfg sc path
            stagesBeforeCanvas [CanvasHost; ControlDashboard]);
    try eassumption; [reflexivity|].
  simpl map. cbn [runChain]. rewrite Hhost, Hcanvas.
  unfold orElse. unfold_monad. simpl. rewrite Hdeclined. simpl.
  rewrite Hhandled. simpl. flatten_trace. reflexivity.
Qed.

(** The resolver for a remote caller without a bearer token whose
    capability token the registry grants. *)
Lemma resolver_grants_by_capability
    (req : IncomingMessage) (auth : ResolvedGatewayAuth)
    (trustedProxies : list string) (canvasCapability : option string)
    (rateLimiter : option AuthRateLimiter) (w : World Ext) :
  isLocalDirectRequest env req trustedProxies = false ->
  Js.truthyString (getBearerToken env req) = false ->
  registryGrants env canvasCapability (heap w) ->
  authorizeCanvasRequest env req auth trustedProxies canvasCapability false
    rateLimiter w
  = (Returned authOk,
     {| heap := setClients (heap w)
                  (snd (forEachClient env (nowMs (heap w))
                          (default EmptyString canvasCapability) (clients (heap w))));
        trace := trace w ++
          [EvIsLocalDirectRequest trustedProxies; EvGetBearerToken; EvDateNow] |}).
Proof.
  intros Hlocal Hnone Hgrants. unfold authorizeCanvasRequest.
  rewrite (bind_returned _ _ _ _ _ (callPure_run _ _ _)), Hlocal.
  rewrite (bind_returned _ _ _ _ _ (callPure_run _ _ _)).
  rewrite Hnone. erewrite bind_returned by reflexivity.
  destruct (capability_phase env canvasCapability None
              {| heap := heap w;
                 trace := (trace w ++ [EvIsLocalDirectRequest trustedProxies])
                          ++ [EvGetBearerToken] |}) as [Hyes _].
  simpl heap in *. simpl trace in *.
  rewrite (Hyes Hgrants). flatten_trace. reflexivity.
Qed.

(** X18.  The capability token at work over HTTP: a remote caller without
    a bearer token asks for a canvas path with a capability token that some
    live node session grants.  The request is authorized, the first
    granting session is renewed to now + TTL, and the A2UI handler is
    called next, seeing the renewed session set. *)
Theorem capability_token_opens_canvas_path
    (opts : HttpServerOpts Ext) (req : IncomingMessage) (w w1 : World Ext)
    (cfg : OpenClawConfig) (sc : NormalizedCanvasScopedUrl) (path : string)
    (host : CanvasHostHandler Ext) (h3 : Heap Ext)
    (Hup : isWebSocketUpgrade req = false)
    (Hcfg : loadConfig env
              (setRes (heap w) (setDefaultSecurityHeaders env (res (heap w))))
            = Returned cfg)
    (Hnorm : normalizeCanvasScopedUrl env (default "/" (req_url req)) = Returned sc)
    (Hmal : malformedScopedPath sc = false)
    (Hpath : urlPathname env (default "/" (req_url (routedRequest req sc)))
             = Returned path)
    (Hhost : canvasHost opts = Some host)
    (Hcanvas : isCanvasPath env path = true)
    (Hbefore : allDecline
                 (map (stage env opts cfg (default [] (gateway_trustedProxies cfg))
                         sc (routedRequest req sc) path) stagesBeforeCanvas)
                 (atRouter env w (default "/" (req_url req))
                    (default "/" (req_url (routedRequest req sc)))) w1)
    (Hremote : isLocalDirectRequest env (routedRequest req sc)
                 (default [] (gateway_trustedProxies cfg)) = false)
    (Hnobearer : Js.truthyString (getBearerToken env (routedRequest req sc)) = false)
    (Hgrants : registryGrants env (capability sc) (heap w1)) :
  let renewedHeap :=
    setClients (heap w1)
      (snd (forEachClient env (nowMs (heap w1))
              (default EmptyString (capability sc)) (clients (heap w1)))) in
  handleA2uiHttpRequest env (routedRequest req sc) renewedHeap = (Returned true, h3) ->
  handleRequest env opts req w
  = (Returned tt,
     {| heap := h3;
        trace := (trace w1 ++
          [ EvIsLocalDirectRequest (default [] (gateway_trustedProxies cfg));
            EvGetBearerToken; EvDateNow; EvHandleA2uiHttpRequest ])%list |}).
Proof.
  intros renewedHeap Hhandled. subst renewedHeap.
  eapply (handleRequest_after_declines opts req w w1 _ cfg sc path
            stagesBeforeCanvas [CanvasHost; ControlDashboard]);
    try eassumption; [reflexivity|].
  simpl map. cbn [runChain]. rewrite Hhost, Hcanvas, Hmal.
  unfold gatedBy. unfold bind at 1 2.
  rewrite (resolver_grants_by_capability _ _ _ _ _ _ Hremote Hnobearer Hgrants).
  cbn [ok authOk]. unfold orElse. unfold_monad. simpl.
  rewrite Hhandled. simpl. flatten_trace. reflexivity.
Qed.

End GatedRoutes.

Module FurtherWitnesses.

Import Demo.

(** Accepted at 4000 (expiry 5000 becomes 9000), the token is accepted
    again at 8000. *)
Lemma token_used_within_ttl_stays_valid_witness :
  exists w3,
    hasAuthorizedNodeWsClientForCanvasCapability env "T"
      (world 8000 [nodeSession "T" 9000])
    = (Returned true, w3).
Proof.
  apply (token_used_within_ttl_stays_valid env "T"
           (world 4000 [nodeSession "T" 5000])
           {| heap := heap (world 4000 [nodeSession "T" 9000]);
              trace := [EvDateNow] |}
           (world 8000 [nodeSession "T" 9000])).
  - reflexivity.
  - reflexivity.
  - simpl. lia.
  - simpl. lia.
Defined.

Lemma check_keeps_expiries_within_ttl_witness :
  expiriesWithin 9000
    (clients (heap (snd (hasAuthorizedNodeWsClientForCanvasCapability env "T"
                           (world 4000 [uiSession; nodeSession "T" 5000]))))).
Proof.
  apply (proj1 (check_keeps_expiries_within_ttl env "T"
                  (world 4000 [uiSession; nodeSession "T" 5000])
                  ltac:(repeat constructor; simpl; intros e He;
                        inversion He; lia))).
Defined.

Lemma health_check_answers_before_any_handler_witness :
  handleRequest env opts (request "GET" "/healthz") (world 0 [])
  = (Returned tt,
     {| heap := setRes (heap (world 0 []))
          {| statusCode := 200;
             headers := [ ("X-Content-Type-Options", "nosniff");
                          ("Content-Type", "application/json; charset=utf-8") ];
             body := Some gatewayHealthPayload |};
        trace := [ EvSetDefaultSecurityHeaders; EvLoadConfig;
                   EvNormalizeCanvasScopedUrl "/healthz";
                   EvUrlPathname "/healthz" ] |}).
Proof.
  apply (proj1 (health_check_answers_before_any_handler env opts
                  (request "GET" "/healthz") (world 0 []) emptyConfig plainScoped
                  "/healthz" eq_refl eq_refl eq_refl eq_refl eq_refl eq_refl)).
Defined.

Lemma unparseable_url_is_refused_witness :
  handleRequest (customEnv invalidUrl authorize) opts (request "GET" "//")
    (world 0 [])
  = (Returned tt,
     {| heap := setRes (heap (world 0 []))
          {| statusCode := 500;
             headers := [ ("X-Content-Type-Options", "nosniff");
                          ("Content-Type", "text/plain; charset=utf-8") ];
             body := Some "Internal Server Error" |};
        trace := [ EvSetDefaultSecurityHeaders; EvLoadConfig;
                   EvNormalizeCanvasScopedUrl "//" ] |})
  /\ upgradeListener (customEnv invalidUrl authorize) upgradeOpts
       (request "GET" "//") (world 0 [])
     = (Returned tt,
        {| heap := setSocket (heap (world 0 []))
             {| written := []; destroyed := true |};
           trace := [EvNormalizeCanvasScopedUrl "//"; EvSocketDestroy] |}).
Proof.
  destruct (unparseable_url_is_refused (customEnv invalidUrl authorize)
              (request "GET" "//") "TypeError: Invalid URL" eq_refl)
    as [Hhttp Hupgrade].
  split.
  - exact (Hhttp opts (world 0 []) emptyConfig eq_refl eq_refl).
  - exact (Hupgrade upgradeOpts (world 0 [])).
Defined.

Lemma websocket_upgrade_is_left_alone_witness :
  handleRequest env opts (upgradeRequest "/" "203.0.113.9") (world 0 [])
  = (Returned tt,
     {| heap := setRes (heap (world 0 []))
          {| statusCode := 200;
             headers := [("X-Content-Type-Options", "nosniff")];
             body := None |};
        trace := [EvSetDefaultSecurityHeaders] |}).
Proof.
  apply (proj1 (websocket_upgrade_is_left_alone env opts
                  (upgradeRequest "/" "203.0.113.9") (world 0 []) "WebSocket"
                  eq_refl eq_refl)).
Defined.

(** Without a canvas host even the canvas WebSocket path goes straight to
    the WebSocket server. *)
Lemma upgrade_without_canvas_host_goes_to_wss_witness :
  upgradeListener env upgradeOpts (upgradeRequest "/__openclaw__/ws" "203.0.113.9")
    (world 0 [])
  = (Returned tt,
     {| heap := heap (world 0 []);
        trace := [ EvNormalizeCanvasScopedUrl "/__openclaw__/ws";
                   EvWssHandleUpgrade ] |}).
Proof.
  apply (upgrade_without_canvas_host_goes_to_wss env upgradeOpts
           (upgradeRequest "/__openclaw__/ws" "203.0.113.9") (world 0 [])
           plainScoped eq_refl eq_refl eq_refl).
Defined.

Lemma upgrade_off_canvas_path_is_not_gated_witness :
  upgradeListener env canvasUpgradeOpts (upgradeRequest "/gateway" "203.0.113.9")
    (world 0 [])
  = (Returned tt,
     {| heap := heap (world 0 []);
        trace := [ EvNormalizeCanvasScopedUrl "/gateway"; EvUrlPathname "/gateway";
                   EvCanvasHostHandleUpgrade ] |}).
Proof.
  apply (upgrade_off_canvas_path_is_not_gated env canvasUpgradeOpts claimingHost
           (upgradeRequest "/gateway" "203.0.113.9") (world 0 []) plainScoped
           "/gateway" eq_refl eq_refl eq_refl eq_refl).
  discriminate.
Defined.

(** A remote caller without credentials on the canvas WebSocket path. *)
Lemma denied_canvas_upgrade_is_refused_witness :
  upgradeListener env canvasUpgradeOpts
    (upgradeRequest "/__openclaw__/ws" "203.0.113.9") (world 0 [])
  = (Returned tt,
     {| heap := setSocket (heap (world 0 []))
          {| written := [unauthorizedChunk]; destroyed := true |};
        trace := [ EvNormalizeCanvasScopedUrl "/__openclaw__/ws";
                   EvUrlPathname "/__openclaw__/ws"; EvLoadConfig;
                   EvIsLocalDirectRequest []; EvGetBearerToken;
                   EvSocketWrite unauthorizedChunk; EvSocketDestroy ] |}).
Proof.
  apply (denied_canvas_upgrade_is_refused env canvasUpgradeOpts claimingHost
           (upgradeRequest "/__openclaw__/ws" "203.0.113.9") (world 0 [])
           {| heap := heap (world 0 []);
              trace := [ EvNormalizeCanvasScopedUrl "/__openclaw__/ws";
                         EvUrlPathname "/__openclaw__/ws"; EvLoadConfig;
                         EvIsLocalDirectRequest []; EvGetBearerToken ] |}
           plainScoped emptyConfig authUnauthorized
           eq_refl eq_refl eq_refl eq_refl eq_refl eq_refl eq_refl).
Defined.

(** A local caller on the canvas WebSocket path. *)
Lemma authorized_canvas_upgrade_is_handed_on_witness :
  upgradeListener env canvasUpgradeOpts
    (upgradeRequest "/__openclaw__/ws" "127.0.0.1") (world 0 [])
  = (Returned tt,
     {| heap := heap (world 0 []);
        trace := [ EvNormalizeCanvasScopedUrl "/__openclaw__/ws";
                   EvUrlPathname "/__openclaw__/ws"; EvLoadConfig;
                   EvIsLocalDirectRequest []; EvCanvasHostHandleUpgrade ] |}).
Proof.
  apply (authorized_canvas_upgrade_is_handed_on env canvasUpgradeOpts claimingHost
           (upgradeRequest "/__openclaw__/ws" "127.0.0.1") (world 0 [])
           {| heap := heap (world 0 []);
              trace := [ EvNormalizeCanvasScopedUrl "/__openclaw__/ws";
                         EvUrlPathname "/__openclaw__/ws"; EvLoadConfig;
                         EvIsLocalDirectRequest [] ] |}
           plainScoped emptyConfig authOk
           eq_refl eq_refl eq_refl eq_refl eq_refl eq_refl eq_refl).
Defined.

(** The limiter is down and the caller holds a valid capability token:
    the resolver throws; it does not grant. *)
Lemma failing_bearer_check_is_not_a_bypass_witness :
  authorizeCanvasRequest (customEnv (normalizeCanvasScopedUrl env) limiterDown)
    (remoteRequest (Some "wrong")) tokenAuth [] (Some "T") false None
    (world 4000 [nodeSession "T" 5000])
  = (Thrown "rate limiter unavailable",
     {| heap := heap (world 4000 [nodeSession "T" 5000]);
        trace := [ EvIsLocalDirectRequest []; EvGetBearerToken;
                   bearerCall tokenAuth "wrong" [] None ] |}).
Proof.
  apply (failing_bearer_check_is_not_a_bypass
           (customEnv (normalizeCanvasScopedUrl env) limiterDown)
           (remoteRequest (Some "wrong")) tokenAuth [] (Some "T") None
           (world 4000 [nodeSession "T" 5000]) "wrong"
           "rate limiter unavailable" (heap (world 4000 [nodeSession "T" 5000]))
           eq_refl eq_refl ltac:(discriminate) eq_refl).
Defined.

Ltac all_decline :=
  simpl; repeat (eexists; split; [reflexivity|]); reflexivity.

(** A channel webhook without credentials. *)
Lemma channel_plugin_route_is_reauthorized_witness :
  handleRequest (fullEnv false) fullOpts
    (request "POST" "/api/channels/qq/webhook") (world 0 [])
  = (Returned tt,
     {| heap := setRes (heap (world 0 []))
          {| statusCode := 401;
             headers := [("X-Content-Type-Options", "nosniff")];
             body := Some "unauthorized" |};
        trace := [ EvSetDefaultSecurityHeaders; EvLoadConfig;
                   EvNormalizeCanvasScopedUrl "/api/channels/qq/webhook";
                   EvUrlPathname "/api/channels/qq/webhook";
                   EvHandleHooksRequest; EvHandleToolsInvokeHttpRequest;
                   EvHandleSlackHttpRequest; EvGetBearerToken;
                   EvAuthorizeGatewayConnect tokenAuth None [] (Some 0%nat);
                   EvSendGatewayAuthFailure authUnauthorized ] |}).
Proof.
  apply (proj1 (channel_plugin_route_is_reauthorized (fullEnv false) fullOpts
                  (request "POST" "/api/channels/qq/webhook") (world 0 [])
                  (routerWorld "/api/channels/qq/webhook"
                     [ EvHandleHooksRequest; EvHandleToolsInvokeHttpRequest;
                       EvHandleSlackHttpRequest ])
                  emptyConfig plainScoped "/api/channels/qq/webhook"
                  (fun _ => declines) authUnauthorized
                  (heap (routerWorld "/api/channels/qq/webhook" []))
                  eq_refl eq_refl eq_refl eq_refl eq_refl eq_refl eq_refl
                  ltac:(all_decline) eq_refl)).
  reflexivity.
Defined.

Lemma other_plugin_route_is_not_reauthorized_witness :
  handleRequest env pluginClaimsOpts (request "POST" "/plugins/notes") (world 0 [])
  = (Returned tt,
     {| heap := heap (routerWorld "/plugins/notes" []);
        trace := [ EvSetDefaultSecurityHeaders; EvLoadConfig;
                   EvNormalizeCanvasScopedUrl "/plugins/notes";
                   EvUrlPathname "/plugins/notes";
                   EvHandleHooksRequest; EvHandleToolsInvokeHttpRequest;
                   EvHandleSlackHttpRequest; EvHandlePluginRequest ] |}).
Proof.
  apply (other_plugin_route_is_not_reauthorized env pluginClaimsOpts
           (request "POST" "/plugins/notes") (world 0 [])
           (routerWorld "/plugins/notes"
              [ EvHandleHooksRequest; EvHandleToolsInvokeHttpRequest;
                EvHandleSlackHttpRequest ])
           emptyConfig plainScoped "/plugins/notes" (fun _ => claims)
           (heap (routerWorld "/plugins/notes" []))
           eq_refl eq_refl eq_refl eq_refl eq_refl eq_refl eq_refl
           ltac:(all_decline) eq_refl).
Defined.

(** A remote caller without credentials asking for a canvas page. *)
Lemma canvas_path_is_gated_by_the_resolver_witness :
  handleRequest (fullEnv false) fullOpts
    (request "GET" "/__openclaw__/canvas/index.html") (world 0 [])
  = (Returned tt,
     {| heap := setRes (heap (world 0 []))
          {| statusCode := 401;
             headers := [("X-Content-Type-Options", "nosniff")];
             body := Some "unauthorized" |};
        trace := [ EvSetDefaultSecurityHeaders; EvLoadConfig;
                   EvNormalizeCanvasScopedUrl "/__openclaw__/canvas/index.html";
                   EvUrlPathname "/__openclaw__/canvas/index.html";
                   EvHandleHooksRequest; EvHandleToolsInvokeHttpRequest;
                   EvHandleSlackHttpRequest; EvHandlePluginRequest;
                   EvHandleOpenResponsesHttpRequest; EvHandleOpenAiHttpRequest;
                   EvIsLocalDirectRequest []; EvGetBearerToken;
                   EvSendGatewayAuthFailure authUnauthorized ] |}).
Proof.
  apply (proj1 (canvas_path_is_gated_by_the_resolver (fullEnv false) fullOpts
                  (request "GET" "/__openclaw__/canvas/index.html") (world 0 [])
                  (routerWorld "/__openclaw__/canvas/index.html"
                     [ EvHandleHooksRequest; EvHandleToolsInvokeHttpRequest;
                       EvHandleSlackHttpRequest; EvHandlePluginRequest;
                       EvHandleOpenResponsesHttpRequest;
                       EvHandleOpenAiHttpRequest ])
                  (routerWorld "/__openclaw__/canvas/index.html"
                     [ EvHandleHooksRequest; EvHandleToolsInvokeHttpRequest;
                       EvHandleSlackHttpRequest; EvHandlePluginRequest;
                       EvHandleOpenResponsesHttpRequest;
                       EvHandleOpenAiHttpRequest;
                       EvIsLocalDirectRequest []; EvGetBearerToken ])
                  emptyConfig plainScoped "/__openclaw__/canvas/index.html"
                  {| handleHttpRequest := fun _ => declines;
                     handleUpgrade := fun _ => declines |}
                  authUnauthorized
                  eq_refl eq_refl eq_refl eq_refl eq_refl eq_refl eq_refl
                  ltac:(all_decline) eq_refl)).
  reflexivity.
Defined.

Lemma off_canvas_path_skips_the_resolver_witness :
  handleRequest env canvasClaimsOpts (request "GET" "/nothing") (world 0 [])
  = (Returned tt,
     {| heap := heap (routerWorld "/nothing" []);
        trace := [ EvSetDefaultSecurityHeaders; EvLoadConfig;
                   EvNormalizeCanvasScopedUrl "/nothing"; EvUrlPathname "/nothing";
                   EvHandleHooksRequest; EvHandleToolsInvokeHttpRequest;
                   EvHandleSlackHttpRequest; EvHandleA2uiHttpRequest;
                   EvCanvasHostHandleHttpRequest ] |}).
Proof.
  apply (off_canvas_path_skips_the_resolver env canvasClaimsOpts
           (request "GET" "/nothing") (world 0 [])
           (routerWorld "/nothing"
              [ EvHandleHooksRequest; EvHandleToolsInvokeHttpRequest;
                EvHandleSlackHttpRequest ])
           emptyConfig plainScoped "/nothing" claimingHost
           (heap (routerWorld "/nothing" []))
           eq_refl eq_refl eq_refl eq_refl eq_refl eq_refl eq_refl
           ltac:(all_decline) eq_refl
           (heap (routerWorld "/nothing" [])) eq_refl).
Defined.

(** A browser loads a canvas page with the capability token of a
    connected node, at time 4000. *)
Lemma capability_token_opens_canvas_path_witness :
  handleRequest scopedEnv canvasClaimsOpts
    (request "GET" "/__openclaw__/cap/T/__openclaw__/canvas/index.html")
    (world 4000 [uiSession; nodeSession "T" 5000])
  = (Returned tt,
     {| heap := {| ext := 0%nat; nowMs := 4000;
                   clients := [uiSession; nodeSession "T" 9000];
                   res := setDefaultSecurityHeaders env freshRes;
                   socket := freshSocket |};
        trace := [ EvSetDefaultSecurityHeaders; EvLoadConfig;
                   EvNormalizeCanvasScopedUrl
                     "/__openclaw__/cap/T/__openclaw__/canvas/index.html";
                   EvUrlPathname "/__openclaw__/canvas/index.html";
                   EvHandleHooksRequest; EvHandleToolsInvokeHttpRequest;
                   EvHandleSlackHttpRequest;
                   EvIsLocalDirectRequest []; EvGetBearerToken; EvDateNow;
                   EvHandleA2uiHttpRequest ] |}).
Proof.
  apply (capability_token_opens_canvas_path scopedEnv canvasClaimsOpts
           (request "GET" "/__openclaw__/cap/T/__openclaw__/canvas/index.html")
           (world 4000 [uiSession; nodeSession "T" 5000])
           {| heap := {| ext := 0%nat; nowMs := 4000;
                         clients := [uiSession; nodeSession "T" 5000];
                         res := setDefaultSecurityHeaders env freshRes;
                         socket := freshSocket |};
              trace := [ EvSetDefaultSecurityHeaders; EvLoadConfig;
                         EvNormalizeCanvasScopedUrl
                           "/__openclaw__/cap/T/__openclaw__/canvas/index.html";
                         EvUrlPathname "/__openclaw__/canvas/index.html";
                         EvHandleHooksRequest; EvHandleToolsInvokeHttpRequest;
                         EvHandleSlackHttpRequest ] |}
           emptyConfig scopedT "/__openclaw__/canvas/index.html" claimingHost
           {| ext := 0%nat; nowMs := 4000;
              clients := [uiSession; nodeSession "T" 9000];
              res := setDefaultSecurityHeaders env freshRes;
              socket := freshSocket |}
           eq_refl eq_refl eq_refl eq_refl eq_refl eq_refl eq_refl
           ltac:(all_decline) eq_refl eq_refl).
  - split; [reflexivity|].
    apply Exists_cons_tl. apply Exists_cons_hd.
    split; [reflexivity|]. exists "T", 5000.
    repeat split; discriminate.
  - reflexivity.
Defined.

End FurtherWitnesses.
